(** * SweetCow: reproductive-cycle state engine and alert aggregator

    A shallow embedding of [buildPregnancyInfo], [buildAlerts],
    [getCalfGraduationInfo] and the confirmation overlay of the SweetCow
    server, together with the part of the ECMAScript [Date] object these
    functions rely on.

    Conventions of the embedding.
    - A [Date] is its time value: a [Z] counting milliseconds since the
      epoch.  Only valid dates are modelled (the Mongoose schemas declare
      every date field as [Date], which rejects values that do not parse).
      The methods compute the time value that [TimeClip] receives; a result
      outside [inTimeRange], for which the program holds an Invalid Date,
      is outside the model, and the statements about projected dates say
      where they rely on the range.
    - The time zone of the host is a [zone]: the offset of local time in
      force at each instant and the offset by which each local time is read
      back, so that daylight-saving transitions are covered; every
      local-time method takes the zone as its first argument.  [fixedZone]
      is a host whose offset never changes.
    - Numeric settings are integers; a missing field or a missing settings
      document is [None]. *)

From stdpp Require Import base gmap sets list strings sorting.
From Stdlib Require Import ZArith Lia Ascii.

Local Open Scope Z_scope.

(** ** ECMAScript time values (ECMA-262, section "Date Objects") *)

Module ESDate.

Definition msPerDay : Z := 86400000.
Definition msPerHour : Z := 3600000.
Definition msPerMinute : Z := 60000.
Definition msPerSecond : Z := 1000.

Definition Day (t : Z) : Z := t / msPerDay.
Definition TimeWithinDay (t : Z) : Z := t mod msPerDay.

Definition DaysInYear (y : Z) : Z :=
  if negb (y mod 4 =? 0) then 365
  else if negb (y mod 100 =? 0) then 366
  else if negb (y mod 400 =? 0) then 365
  else 366.

Definition DayFromYear (y : Z) : Z :=
  365 * (y - 1970) + (y - 1969) / 4 - (y - 1901) / 100 + (y - 1601) / 400.

Definition TimeFromYear (y : Z) : Z := msPerDay * DayFromYear y.

(** The largest year [y] with [DayFromYear y <= d]: a closed-form estimate
    corrected by at most one year. *)
Definition YearFromDay (d : Z) : Z :=
  let y0 := 1970 + (d * 400) / 146097 in
  if DayFromYear (y0 + 1) <=? d then y0 + 1
  else if d <? DayFromYear y0 then y0 - 1
  else y0.

Definition YearFromTime (t : Z) : Z := YearFromDay (Day t).

Definition InLeapYear (t : Z) : Z :=
  if DaysInYear (YearFromTime t) =? 366 then 1 else 0.

Definition DayWithinYear (t : Z) : Z := Day t - DayFromYear (YearFromTime t).

Definition MonthFromTime (t : Z) : Z :=
  let d := DayWithinYear t in
  let l := InLeapYear t in
  if d <? 31 then 0
  else if d <? 59 + l then 1
  else if d <? 90 + l then 2
  else if d <? 120 + l then 3
  else if d <? 151 + l then 4
  else if d <? 181 + l then 5
  else if d <? 212 + l then 6
  else if d <? 243 + l then 7
  else if d <? 273 + l then 8
  else if d <? 304 + l then 9
  else if d <? 334 + l then 10
  else 11.

(** Number of days of the year that precede month [m] (0 = January). *)
Definition monthStart (leap m : Z) : Z :=
  if m =? 0 then 0
  else if m =? 1 then 31
  else if m =? 2 then 59 + leap
  else if m =? 3 then 90 + leap
  else if m =? 4 then 120 + leap
  else if m =? 5 then 151 + leap
  else if m =? 6 then 181 + leap
  else if m =? 7 then 212 + leap
  else if m =? 8 then 243 + leap
  else if m =? 9 then 273 + leap
  else if m =? 10 then 304 + leap
  else 334 + leap.

Definition DateFromTime (t : Z) : Z :=
  DayWithinYear t - monthStart (InLeapYear t) (MonthFromTime t) + 1.

Definition WeekDay (t : Z) : Z := (Day t + 4) mod 7.

Definition HourFromTime (t : Z) : Z := (t / msPerHour) mod 24.
Definition MinFromTime (t : Z) : Z := (t / msPerMinute) mod 60.
Definition SecFromTime (t : Z) : Z := (t / msPerSecond) mod 60.
Definition msFromTime (t : Z) : Z := t mod msPerSecond.

Definition MakeTime (h m s ms : Z) : Z :=
  h * msPerHour + m * msPerMinute + s * msPerSecond + ms.

(** [MakeDay]: the day number of the first of month [month] of [year]
    (months outside 0..11 carry into the year), plus [date - 1]. *)
Definition MakeDay (year month date : Z) : Z :=
  let ym := year + month / 12 in
  let mn := month mod 12 in
  let leap := if DaysInYear ym =? 366 then 1 else 0 in
  DayFromYear ym + monthStart leap mn + date - 1.

Definition MakeDate (day time : Z) : Z := day * msPerDay + time.

(** Two-digit years of the [Date] constructor and of [Date.UTC]. *)
Definition MakeFullYear (y : Z) : Z :=
  if (0 <=? y) && (y <=? 99) then 1900 + y else y.

(** The last time value: 100,000,000 days after the epoch. *)
Definition maxTime : Z := 8640000000000000.

(** The time values a valid [Date] can hold. *)
Definition inTimeRange (t : Z) : Prop := - maxTime <= t <= maxTime.

(** [TimeClip]: the time value, or nothing where the result is [NaN]. *)
Definition TimeClip (t : Z) : option Z :=
  if Z.abs t <=? maxTime then Some t else None.

(** The time zone of the host, in milliseconds east of UTC:
    [offsetAt t] is [LocalTZA(t, true)], the offset in force at the instant
    [t]; [offsetOfLocal t] is [LocalTZA(t, false)], the offset by which the
    local time [t] is read back (at a transition, the offset before it). *)
Record zone := mkZone {
  offsetAt : Z -> Z;
  offsetOfLocal : Z -> Z
}.

(** A host whose offset is [tza] all year round. *)
Definition fixedZone (tza : Z) : zone :=
  {| offsetAt := fun _ => tza; offsetOfLocal := fun _ => tza |}.

Section LocalTime.
Variable tz : zone.

Definition LocalTime (t : Z) : Z := t + offsetAt tz t.
Definition UTC (t : Z) : Z := t - offsetOfLocal tz t.

Definition getFullYear (tv : Z) : Z := YearFromTime (LocalTime tv).
Definition getMonth (tv : Z) : Z := MonthFromTime (LocalTime tv).
Definition getDate (tv : Z) : Z := DateFromTime (LocalTime tv).
Definition getDay (tv : Z) : Z := WeekDay (LocalTime tv).

Definition setDate (tv dt : Z) : Z :=
  let t := LocalTime tv in
  UTC (MakeDate (MakeDay (YearFromTime t) (MonthFromTime t) dt)
                (TimeWithinDay t)).

Definition setMonth (tv m : Z) : Z :=
  let t := LocalTime tv in
  UTC (MakeDate (MakeDay (YearFromTime t) m (DateFromTime t))
                (TimeWithinDay t)).

Definition setHours (tv h m s ms : Z) : Z :=
  let t := LocalTime tv in
  UTC (MakeDate (Day t) (MakeTime h m s ms)).

(** [new Date(year, monthIndex, day)] *)
Definition newDateYMD (y m d : Z) : Z :=
  UTC (MakeDate (MakeDay (MakeFullYear y) m d) 0).
End LocalTime.

(** [Date.UTC(year, monthIndex, day)] *)
Definition DateUTC (y m d : Z) : Z :=
  MakeDate (MakeDay (MakeFullYear y) m d) 0.

End ESDate.

(** ** [Date.prototype.toISOString] and the JavaScript helpers used below *)

Module JS.
Import ESDate.

Definition digitChar (n : Z) : ascii := ascii_of_nat (48 + Z.to_nat n).

(** Decimal representation of [n] on exactly [w] digits (leading zeros). *)
Fixpoint padNum (w : nat) (n : Z) : string :=
  match w with
  | O => EmptyString
  | S w' => padNum w' (n / 10) +:+ String (digitChar (n mod 10)) EmptyString
  end.

(** Year part of the ISO format: four digits for 0..9999, otherwise the
    expanded form with a sign and six digits. *)
Definition isoYear (y : Z) : string :=
  if (0 <=? y) && (y <=? 9999) then padNum 4 y
  else (if y <? 0 then "-" else "+") +:+ padNum 6 (Z.abs y).

Definition toISOString (tv : Z) : string :=
  isoYear (YearFromTime tv) +:+ "-" +:+ padNum 2 (MonthFromTime tv + 1)
    +:+ "-" +:+ padNum 2 (DateFromTime tv)
    +:+ "T" +:+ padNum 2 (HourFromTime tv)
    +:+ ":" +:+ padNum 2 (MinFromTime tv)
    +:+ ":" +:+ padNum 2 (SecFromTime tv)
    +:+ "." +:+ padNum 3 (msFromTime tv) +:+ "Z".

(** [s.slice(0, n)] *)
Definition slice0 (n : nat) (s : string) : string := String.substring 0 n s.

(** [v || d] on a number that may be missing: 0 is falsy. *)
Definition orFalsy (v : option Z) (d : Z) : Z :=
  match v with
  | Some x => if x =? 0 then d else x
  | None => d
  end.

(** [v ?? d] on a number that may be missing. *)
Definition orNullish (v : option Z) (d : Z) : Z :=
  match v with
  | Some x => x
  | None => d
  end.

(** [s || d] on a string that may be missing: the empty string is falsy. *)
Definition strOr (v : option string) (d : string) : string :=
  match v with
  | Some EmptyString | None => d
  | Some s => s
  end.

Definition truthyStr (v : option string) : bool :=
  match v with
  | Some EmptyString | None => false
  | Some _ => true
  end.

(** [Math.round (x / q)] for integers [x] and [q > 0]: halves round up. *)
Definition roundDiv (x q : Z) : Z := (2 * x + q) / (2 * q).

(** [Math.ceil (x / q)] for integers [x] and [q > 0]. *)
Definition ceilDiv (x q : Z) : Z := - ((- x) / q).

(** [Math.floor (x / q)] for integers [x] and [q > 0]. *)
Definition floorDiv (x q : Z) : Z := x / q.

Section Sort.
Context {A : Type}.
(** The comparator of [Array.prototype.sort]: negative when the first
    argument sorts first. *)
Variable cmp : A -> A -> Z.

Fixpoint insertBy (x : A) (l : list A) : list A :=
  match l with
  | [] => [x]
  | y :: l' => if cmp x y <=? 0 then x :: y :: l' else y :: insertBy x l'
  end.

(** [Array.prototype.sort] is stable; for a consistent comparator the
    sorted array is therefore unique, and it is the one a stable
    insertion sort builds. *)
Fixpoint sortBy (l : list A) : list A :=
  match l with
  | [] => []
  | x :: l' => insertBy x (sortBy l')
  end.
End Sort.

End JS.

(** ** Data model (the Mongoose schemas of the server) *)

(** [settingsSchema]: every field is an optional [Number]. *)
Module Settings.
Record t := mk {
  gestationDays : option Z;
  dryOffAfterSuccessfulInsemDays : option Z;
  changeFeedAfterSuccessfulInsemDays : option Z;
  postpartumInseminationStartDays : option Z;
  inseminationIntervalDays : option Z;
  calvingAlertBeforeDays : option Z;
  dryOffAlertBeforeDays : option Z;
  changeFeedAlertBeforeDays : option Z;
  pregnancyCheckAlertBeforeDays : option Z;
  inseminationAlertBeforeDays : option Z;
  graduationAlertBeforeDays : option Z;
  weaningAlertBeforeDays : option Z;
  femaleWeaningDays : option Z;
  maleWeaningDays : option Z;
  femaleMaturityMonths : option Z;
  maleMaturityMonths : option Z
}.

(** A settings document with no field set. *)
Definition empty : t :=
  mk None None None None None None None None None None None None None None
     None None.
End Settings.

(** [cowSchema]; [_id] is the document id as printed by [String]. *)
Module Cow.
Record t := mk {
  _id : string;
  cowNumber : option string;
  cowName : option string;
  lastCalving : option Z
}.
End Cow.

(** [inseminationSchema] *)
Module Insem.
Record t := mk {
  _id : string;
  cowId : string;
  date : Z;
  confirmedPregnant : bool;
  failed : bool;
  forced : bool
}.
End Insem.

(** [calfSchema] *)
Module Calf.
Inductive status_t := alive | miscarriage | died.

Record t := mk {
  _id : string;
  calfName : option string;
  birthDate : option Z;
  gender : option string;
  status : status_t;
  graduated : bool
}.
End Calf.

(** [confirmationSchema] *)
Module Confirmation.
Record t := mk {
  _id : string;
  entityType : string;
  entityId : string;
  type : string;
  when : Z;
  alertOn : option Z;
  note : string;
  undone : bool
}.
End Confirmation.

(** The reproduction record returned by [buildPregnancyInfo]. *)
Module Repro.
Inductive status_t := Open | Pending | Pregnant.

(** [a === b] on status strings. *)
Definition status_eqb (a b : status_t) : bool :=
  match a, b with
  | Open, Open | Pending, Pending | Pregnant, Pregnant => true
  | _, _ => false
  end.

Record t := mk {
  status : status_t;
  conceptionDate : option Z;
  estCalving : option Z;
  dryOffDate : option Z;
  changeFeedDate : option Z;
  retryWindowEnd : option Z;
  nextInseminationEarliest : option Z;
  canAddInseminationNow : bool;
  canRetryNow : bool;
  canConfirmNow : bool;
  gestationDays : Z;
  latest : option Insem.t;
  allRecordsCount : nat;
  daysUntilRetryWindowEnd : option Z;
  daysUntilCalving : option Z;
  daysUntilDryOff : option Z;
  daysUntilChangeFeed : option Z;
  daysUntilLatestInsemination : option Z;
  daysUntilLastCalving : option Z;
  daysUntilConception : option Z;
  daysUntilNextInseminationEarliest : option Z
}.
End Repro.

(** The events built by [buildAlerts]. *)
Module Ev.
Record entity_t := mkEntity {
  etype : string;
  id : string;
  name : string
}.

(** [meta] is [{}] except for pregnancy checks, which carry [latestId]. *)
Inductive meta_t :=
| metaEmpty
| metaLatestId (latestId : option string).

Record t := mk {
  when : Z;
  alertDate : Z;
  type : string;
  label : string;
  entity : entity_t;
  meta : meta_t
}.
End Ev.

(** ** The reproductive state calculator: [buildPregnancyInfo] *)

Module Engine.
Import ESDate JS.

Definition DAY_MS : Z := 24 * 60 * 60 * 1000.

Section Host.
(** The time zone of the server. *)
Variable tz : zone.

(** [Date.UTC(d.getFullYear(), d.getMonth(), d.getDate())] *)
Definition toUTCYMD (d : Z) : Z :=
  DateUTC (getFullYear tz d) (getMonth tz d) (getDate tz d).

Definition daysBetween (futureOrPastDate refDate : Z) : Z :=
  roundDiv (toUTCYMD futureOrPastDate - toUTCYMD refDate) DAY_MS.

(** The idiom [x = new Date(d); x.setDate(x.getDate() + n)]. *)
Definition addDays (d n : Z) : Z := setDate tz d (getDate tz d + n).

(** The idiom [x = new Date(d); x.setMonth(x.getMonth() + n)]. *)
Definition addMonths (d n : Z) : Z := setMonth tz d (getMonth tz d + n).

(** [settings?.field] *)
Definition field (settings : option Settings.t)
    (f : Settings.t -> option Z) : option Z :=
  match settings with
  | Some s => f s
  | None => None
  end.

(** The mutable locals of [buildPregnancyInfo]. *)
Record locals := mkLocals {
  status : Repro.status_t;
  conceptionDate : option Z;
  estCalving : option Z;
  dryOffDate : option Z;
  changeFeedDate : option Z;
  retryWindowEnd : option Z;
  nextInseminationEarliest : option Z;
  daysUntilRetryWindowEnd : option Z;
  daysUntilCalving : option Z;
  daysUntilDryOff : option Z;
  daysUntilChangeFeed : option Z;
  daysUntilLatestInsemination : option Z;
  daysUntilConception : option Z
}.

Definition initLocals : locals :=
  mkLocals Repro.Open None None None None None None None None None None
           None None.

(** [insems.filter(r => String(r.cowId) === String(cow._id))
          .sort((a,b) => new Date(b.date) - new Date(a.date))] *)
Definition recordsOf (cow : Cow.t) (insems : list Insem.t) : list Insem.t :=
  sortBy (fun a b => Insem.date b - Insem.date a)
    (filter (fun r => Insem.cowId r = Cow._id cow) insems).

(** The branch on the latest record (source lines 661-687). *)
Definition latestBranch (now gestationDays dryOffDays changeFeedDays
    retryIntervalDays : Z) (latest : Insem.t) : locals :=
  let latestDate := Insem.date latest in
  if Insem.confirmedPregnant latest then
    let estCalving := addDays latestDate gestationDays in
    let dryOffDate := addDays latestDate dryOffDays in
    let changeFeedDate := addDays latestDate changeFeedDays in
    {| status := Repro.Pregnant;
       conceptionDate := Some latestDate;
       estCalving := Some estCalving;
       dryOffDate := Some dryOffDate;
       changeFeedDate := Some changeFeedDate;
       retryWindowEnd := None;
       nextInseminationEarliest := None;
       daysUntilRetryWindowEnd := None;
       daysUntilCalving := Some (daysBetween estCalving now);
       daysUntilDryOff := Some (daysBetween dryOffDate now);
       daysUntilChangeFeed := Some (daysBetween changeFeedDate now);
       daysUntilLatestInsemination := None;
       daysUntilConception := Some (daysBetween latestDate now) |}
  else if Insem.failed latest then
    let retryBase := addDays latestDate retryIntervalDays in
    {| status := Repro.Open;
       conceptionDate := None;
       estCalving := None;
       dryOffDate := None;
       changeFeedDate := None;
       retryWindowEnd := None;
       nextInseminationEarliest := Some retryBase;
       daysUntilRetryWindowEnd := None;
       daysUntilCalving := None;
       daysUntilDryOff := None;
       daysUntilChangeFeed := None;
       daysUntilLatestInsemination := Some (daysBetween latestDate now);
       daysUntilConception := None |}
  else
    let retryWindowEnd := addDays latestDate retryIntervalDays in
    {| status := Repro.Pending;
       conceptionDate := None;
       estCalving := None;
       dryOffDate := None;
       changeFeedDate := None;
       retryWindowEnd := Some retryWindowEnd;
       nextInseminationEarliest := None;
       daysUntilRetryWindowEnd := Some (daysBetween retryWindowEnd now);
       daysUntilCalving := None;
       daysUntilDryOff := None;
       daysUntilChangeFeed := None;
       daysUntilLatestInsemination := Some (daysBetween latestDate now);
       daysUntilConception := None |}.

(** [status === 'Pregnant' && lastCalving && conceptionDate
     && lastCalving > conceptionDate] *)
Definition staleCycle (v : locals) (lastCalving : option Z) : bool :=
  Repro.status_eqb (status v) Repro.Pregnant &&
  match lastCalving, conceptionDate v with
  | Some lc, Some cd => cd <? lc
  | _, _ => false
  end.

(** "If a calving was recorded after conception, reopen": the pregnancy
    dates and [daysUntilCalving] are reset, the other counters are kept. *)
Definition reopen (v : locals) (lastCalving : option Z) : locals :=
  if staleCycle v lastCalving then
    {| status := Repro.Open;
       conceptionDate := None;
       estCalving := None;
       dryOffDate := None;
       changeFeedDate := None;
       retryWindowEnd := retryWindowEnd v;
       nextInseminationEarliest := nextInseminationEarliest v;
       daysUntilRetryWindowEnd := daysUntilRetryWindowEnd v;
       daysUntilCalving := None;
       daysUntilDryOff := daysUntilDryOff v;
       daysUntilChangeFeed := daysUntilChangeFeed v;
       daysUntilLatestInsemination := daysUntilLatestInsemination v;
       daysUntilConception := daysUntilConception v |}
  else v.

(** Merge of the postpartum constraint (source lines 698-708). *)
Definition mergePostpartum (postpartumStartDays : Z)
    (lastCalving next : option Z) : option Z :=
  match lastCalving with
  | Some lc =>
      let postpartumEarliest := addDays lc postpartumStartDays in
      match next with
      | Some n => if n <? postpartumEarliest then Some postpartumEarliest
                  else Some n
      | None => Some postpartumEarliest
      end
  | None => next
  end.

Definition buildPregnancyInfo (now : Z) (cow : Cow.t)
    (settings : option Settings.t) (insems : list Insem.t) : Repro.t :=
  let gestationDays := orFalsy (field settings Settings.gestationDays) 283 in
  let dryOffDays :=
    orFalsy (field settings Settings.dryOffAfterSuccessfulInsemDays) 220 in
  let changeFeedDays :=
    orFalsy (field settings Settings.changeFeedAfterSuccessfulInsemDays) 260 in
  let postpartumStartDays :=
    orFalsy (field settings Settings.postpartumInseminationStartDays) 60 in
  let retryIntervalDays :=
    orFalsy (field settings Settings.inseminationIntervalDays) 90 in
  let allRecords := recordsOf cow insems in
  let latest := head allRecords in
  let lastCalving := Cow.lastCalving cow in
  let v :=
    match latest with
    | Some l =>
        reopen (latestBranch now gestationDays dryOffDays changeFeedDays
                  retryIntervalDays l) lastCalving
    | None => initLocals
    end in
  let nextInseminationEarliest :=
    mergePostpartum postpartumStartDays lastCalving
      (nextInseminationEarliest v) in
  let isOpen := Repro.status_eqb (status v) Repro.Open in
  let isPending := Repro.status_eqb (status v) Repro.Pending in
  let canAddInseminationNow :=
    isOpen && match nextInseminationEarliest with
              | Some n => n <=? now
              | None => true
              end in
  let windowPassed :=
    match retryWindowEnd v with
    | Some w => w <=? now
    | None => false
    end in
  let canRetryNow := isPending && windowPassed in
  let canConfirmNow := isPending && windowPassed in
  {| Repro.status := status v;
     Repro.conceptionDate := conceptionDate v;
     Repro.estCalving := estCalving v;
     Repro.dryOffDate := dryOffDate v;
     Repro.changeFeedDate := changeFeedDate v;
     Repro.retryWindowEnd := retryWindowEnd v;
     Repro.nextInseminationEarliest := nextInseminationEarliest;
     Repro.canAddInseminationNow := canAddInseminationNow;
     Repro.canRetryNow := canRetryNow;
     Repro.canConfirmNow := canConfirmNow;
     Repro.gestationDays := gestationDays;
     Repro.latest := latest;
     Repro.allRecordsCount := length allRecords;
     Repro.daysUntilRetryWindowEnd := daysUntilRetryWindowEnd v;
     Repro.daysUntilCalving := daysUntilCalving v;
     Repro.daysUntilDryOff := daysUntilDryOff v;
     Repro.daysUntilChangeFeed := daysUntilChangeFeed v;
     Repro.daysUntilLatestInsemination :=
       match latest with
       | Some l => Some (daysBetween (Insem.date l) now)
       | None => daysUntilLatestInsemination v
       end;
     Repro.daysUntilLastCalving :=
       match lastCalving with
       | Some lc => Some (daysBetween lc now)
       | None => None
       end;
     Repro.daysUntilConception := daysUntilConception v;
     Repro.daysUntilNextInseminationEarliest :=
       match nextInseminationEarliest with
       | Some n => Some (daysBetween n now)
       | None => None
       end |}.
End Host.
End Engine.

(** ** The alert aggregator: [buildAlerts] *)

Module Alerts.
Import ESDate JS Engine.

(** The first argument of [buildAlerts]. *)
Record input := mkInput {
  cows : list Cow.t;
  calves : list Calf.t;
  settings : option Settings.t;
  insems : list Insem.t;
  confirmations : list Confirmation.t
}.

(** One entry of [week] and [weekAlerts]. *)
Record weekBucket := mkWeekBucket {
  wdate : Z;
  witems : list Ev.t
}.

(** One entry of [month.days] and [monthDue.days]. *)
Record dayBucket := mkDayBucket {
  day : Z;
  items : list Ev.t
}.

Record monthView := mkMonthView {
  year : Z;
  monthIndex : Z;
  days : list dayBucket
}.

Record output := mkOutput {
  week : list weekBucket;
  weekAlerts : list weekBucket;
  month : monthView;
  monthDue : monthView;
  pastDue : list Ev.t
}.

(** The [lead] object: alert lead times by milestone type. *)
Definition leadTable (settings : option Settings.t) : gmap string Z :=
  list_to_map
    [ ("calving", orNullish (field settings Settings.calvingAlertBeforeDays) 10);
      ("dryOff", orNullish (field settings Settings.dryOffAlertBeforeDays) 1);
      ("changeFeed",
        orNullish (field settings Settings.changeFeedAlertBeforeDays) 1);
      ("pregnancyCheck",
        orNullish (field settings Settings.pregnancyCheckAlertBeforeDays) 3);
      ("insemination",
        orNullish (field settings Settings.inseminationAlertBeforeDays) 0);
      ("graduation",
        orNullish (field settings Settings.graduationAlertBeforeDays) 7);
      ("weaning", orNullish (field settings Settings.weaningAlertBeforeDays) 7) ].

(** The [cowInsems] map: the insemination records grouped by [cowId], each
    group in the order of [insems]. *)
Definition cowInsems (insems : list Insem.t) : gmap string (list Insem.t) :=
  fold_left
    (fun m r =>
       let k := Insem.cowId r in
       <[ k := default [] (m !! k) ++ [r] ]> m)
    insems ∅.

(** [`${e.entity.type}:${e.entity.id}:${e.type}:${...toISOString().slice(0,10)}`] *)
Definition confKey (e : Ev.t) : string :=
  Ev.etype (Ev.entity e) +:+ ":" +:+ Ev.id (Ev.entity e) +:+ ":" +:+ Ev.type e
    +:+ ":" +:+ slice0 10 (toISOString (Ev.when e)).

(** The same key, built from a confirmation record. *)
Definition confirmationKey (c : Confirmation.t) : string :=
  Confirmation.entityType c +:+ ":" +:+ Confirmation.entityId c +:+ ":"
    +:+ Confirmation.type c
    +:+ ":" +:+ slice0 10 (toISOString (Confirmation.when c)).

(** The set [confirmed] of keys of the confirmations that are not undone. *)
Definition confirmed (confirmations : list Confirmation.t) : gset string :=
  list_to_set
    (confirmationKey <$>
       filter (fun c => Confirmation.undone c = false) confirmations).

(** [events.filter(e => !confirmed.has(confKey(e)))] *)
Definition filterActive (events : list Ev.t)
    (confirmations : list Confirmation.t) : list Ev.t :=
  filter (fun e => confKey e ∉ confirmed confirmations) events.

(** [lead[type] || 0] *)
Definition leadOf (lead : gmap string Z) (type : string) : Z :=
  orFalsy (lead !! type) 0.

Section Host.
(** The time zone of the server. *)
Variable tz : zone.

(** The idiom [x = new Date(d); x.setDate(x.getDate() - n)]. *)
Definition subDays (d n : Z) : Z := setDate tz d (getDate tz d - n).

(** The closure [push] of the cow loop. *)
Definition push (lead : gmap string Z) (cow : Cow.t) (date : option Z)
    (type label : string) (meta : Ev.meta_t) : list Ev.t :=
  match date with
  | None => []
  | Some when =>
      let l := leadOf lead type in
      let alertDate := subDays when l in
      [ {| Ev.when := when;
           Ev.alertDate := alertDate;
           Ev.type := type;
           Ev.label := label;
           Ev.entity :=
             {| Ev.etype := "cow";
                Ev.id := Cow._id cow;
                Ev.name := strOr (Cow.cowName cow)
                             (strOr (Cow.cowNumber cow) "Cow") |};
           Ev.meta := meta |} ]
  end.

(** Body of the loop over the cows. *)
Definition cowEvents (now : Z) (lead : gmap string Z)
    (settings : option Settings.t) (groups : gmap string (list Insem.t))
    (cow : Cow.t) : list Ev.t :=
  let records :=
    sortBy (fun a b => Insem.date b - Insem.date a)
      (default [] (groups !! Cow._id cow)) in
  let repro := buildPregnancyInfo tz now cow settings records in
  push lead cow (Repro.retryWindowEnd repro) "pregnancyCheck"
       "Pregnancy check"
       (Ev.metaLatestId (Insem._id <$> Repro.latest repro))
  ++ push lead cow (Repro.nextInseminationEarliest repro) "insemination"
       "Earliest insemination" Ev.metaEmpty
  ++ push lead cow (Repro.dryOffDate repro) "dryOff" "Dry-Off" Ev.metaEmpty
  ++ push lead cow (Repro.changeFeedDate repro) "changeFeed" "Change Feed"
       Ev.metaEmpty
  ++ push lead cow (Repro.estCalving repro) "calving" "Estimated Calving"
       Ev.metaEmpty.

Definition calfEntity (calf : Calf.t) : Ev.entity_t :=
  {| Ev.etype := "calf";
     Ev.id := Calf._id calf;
     Ev.name := strOr (Calf.calfName calf) "Calf" |}.

(** Body of the loop "Calf weaning + graduations" (source lines 303-311). *)
Definition weaningEvents (lead : gmap string Z)
    (settings : option Settings.t) (calf : Calf.t) : list Ev.t :=
  match Calf.birthDate calf with
  | None => []
  | Some birthDate =>
      if negb (truthyStr (Calf.gender calf)) then []
      else
        let gender := default "" (Calf.gender calf) in
        let wDays :=
          if String.eqb gender "female"
          then orNullish (field settings Settings.femaleWeaningDays) 180
          else orNullish (field settings Settings.maleWeaningDays) 180 in
        let wTarget := addDays tz birthDate wDays in
        let wAlertDate := subDays wTarget (leadOf lead "weaning") in
        [ {| Ev.when := wTarget;
             Ev.alertDate := wAlertDate;
             Ev.type := "weaning";
             Ev.label := "Weaning (" +:+ gender +:+ ")";
             Ev.entity := calfEntity calf;
             Ev.meta := Ev.metaEmpty |} ]
  end.

(** Body of the loop "Calf graduations" (source line 313). *)
Definition graduationEvents (lead : gmap string Z)
    (settings : option Settings.t) (calf : Calf.t) : list Ev.t :=
  if Calf.graduated calf then []
  else
    match Calf.birthDate calf with
    | None => []
    | Some birthDate =>
        if negb (truthyStr (Calf.gender calf)) then []
        else
          let gender := default "" (Calf.gender calf) in
          let months :=
            if String.eqb gender "female"
            then orNullish (field settings Settings.femaleMaturityMonths) 24
            else orNullish (field settings Settings.maleMaturityMonths) 24 in
          let target := addMonths tz birthDate months in
          let alertDate :=
            subDays target (leadOf lead "graduation") in
          [ {| Ev.when := target;
               Ev.alertDate := alertDate;
               Ev.type := "graduation";
               Ev.label := "Graduate (" +:+ gender +:+ ")";
               Ev.entity := calfEntity calf;
               Ev.meta := Ev.metaEmpty |} ]
    end.

(** The array [events] before the confirmations are applied;
    [realNow] is the clock read by [buildPregnancyInfo]. *)
Definition buildEvents (realNow : Z) (i : input) : list Ev.t :=
  let lead := leadTable (settings i) in
  let groups := cowInsems (insems i) in
  (cows i ≫= cowEvents realNow lead (settings i) groups)
  ++ (calves i ≫= weaningEvents lead (settings i))
  ++ (calves i ≫= graduationEvents lead (settings i)).

(** [buildAlerts(input, anchorDate)]; [realNow] is the value of every
    [new Date()] of the call. *)
Definition buildAlerts (realNow : Z) (i : input) (anchorDate : option Z)
    : output :=
  let now := default realNow anchorDate in
  let startOfWeek :=
    setHours tz (setDate tz now (getDate tz now - getDay tz now))
             0 0 0 0 in
  let endOfWeek := addDays tz startOfWeek 7 in
  let startOfMonth :=
    newDateYMD tz (getFullYear tz now) (getMonth tz now) 1 in
  let endOfMonth :=
    setHours tz
      (newDateYMD tz (getFullYear tz now) (getMonth tz now + 1) 0)
      23 59 59 999 in
  let events := buildEvents realNow i in
  let filtered := filterActive events (confirmations i) in
  let weekDays :=
    (fun k : nat => setHours tz (addDays tz startOfWeek (Z.of_nat k))
                             12 0 0 0) <$> seq 0 7 in
  let totalDays := getDate tz endOfMonth in
  let inMonth (d : Z) := startOfMonth <= d <= endOfMonth in
  let inWeek (d : Z) := startOfWeek <= d < endOfWeek in
  let weekIndex (d : Z) := floorDiv (d - startOfWeek) (1000 * 60 * 60 * 24) in
  let weekBy (f : Ev.t -> Z) :=
    imap (fun k d =>
            {| wdate := d;
               witems := filter (fun ev => inWeek (f ev)
                                    /\ weekIndex (f ev) = Z.of_nat k)
                                filtered |})
         weekDays in
  let monthBy (f : Ev.t -> Z) :=
    (fun k : nat =>
       {| day := Z.of_nat k;
          items := filter (fun ev => inMonth (f ev)
                               /\ getDate tz (f ev) = Z.of_nat k)
                          filtered |})
      <$> seq 1 (Z.to_nat totalDays) in
  let realTodayStart := setHours tz realNow 0 0 0 0 in
  let pastDue :=
    take 100
      (sortBy (fun a b => Ev.alertDate a - Ev.alertDate b)
         (filter (fun ev => Ev.alertDate ev < realTodayStart) filtered)) in
  {| week := weekBy Ev.when;
     weekAlerts := weekBy Ev.alertDate;
     month := {| year := getFullYear tz now;
                 monthIndex := getMonth tz now;
                 days := monthBy Ev.alertDate |};
     monthDue := {| year := getFullYear tz now;
                    monthIndex := getMonth tz now;
                    days := monthBy Ev.when |};
     pastDue := pastDue |}.

(** The result of [getCalfGraduationInfo]. *)
Record gradInfo := mkGradInfo {
  targetDate : Z;
  daysLeft : Z;
  ready : bool
}.

Definition getCalfGraduationInfo (now : Z) (calf : option Calf.t)
    (settings : option Settings.t) : option gradInfo :=
  match calf with
  | None => None
  | Some calf =>
      match Calf.birthDate calf with
      | None => None
      | Some birth =>
          if negb (truthyStr (Calf.gender calf)) then None
          else
            let femaleMonths :=
              orNullish (field settings Settings.femaleMaturityMonths) 24 in
            let maleMonths :=
              orNullish (field settings Settings.maleMaturityMonths) 24 in
            let thresholdMonths :=
              if String.eqb (default "" (Calf.gender calf)) "female"
              then femaleMonths else maleMonths in
            let target := addMonths tz birth thresholdMonths in
            let msLeft := target - now in
            Some {| targetDate := target;
                    daysLeft := ceilDiv msLeft (1000 * 60 * 60 * 24);
                    ready := msLeft <=? 0 |}
      end
  end.
End Host.
End Alerts.

(** ** The confirmation store and its two write paths *)

Module Overlay.

(** Response of a handler of the confirmation API. *)
Inductive response :=
| BadRequest
| NotFound
| Ok (doc : Confirmation.t).

Definition markUndone (c : Confirmation.t) : Confirmation.t :=
  {| Confirmation._id := Confirmation._id c;
     Confirmation.entityType := Confirmation.entityType c;
     Confirmation.entityId := Confirmation.entityId c;
     Confirmation.type := Confirmation.type c;
     Confirmation.when := Confirmation.when c;
     Confirmation.alertOn := Confirmation.alertOn c;
     Confirmation.note := Confirmation.note c;
     Confirmation.undone := true |}.

(** [Confirmation.findByIdAndUpdate(id, { undone: true }, { new: true })]:
    the collection after the update and the updated document, if any. *)
Fixpoint findByIdAndUpdate (id : string) (store : list Confirmation.t)
    : list Confirmation.t * option Confirmation.t :=
  match store with
  | [] => ([], None)
  | c :: rest =>
      if decide (Confirmation._id c = id)
      then (markUndone c :: rest, Some (markUndone c))
      else let r := findByIdAndUpdate id rest in (c :: r.1, r.2)
  end.

Section Routes.
(** [mongoose.isValidObjectId], a function of the Mongoose library. *)
Variable isValidObjectId : string -> bool.

(** Handler of [POST /confirmation/:id/undo]. *)
Definition undo (id : string) (store : list Confirmation.t)
    : list Confirmation.t * response :=
  if negb (isValidObjectId id) then (store, BadRequest)
  else
    match findByIdAndUpdate id store with
    | (store', Some doc) => (store', Ok doc)
    | (store', None) => (store', NotFound)
    end.
End Routes.

(** [Confirmation.find({ undone: { $ne: true } })] *)
Definition findActive (store : list Confirmation.t) : list Confirmation.t :=
  filter (fun c => Confirmation.undone c <> true) store.

End Overlay.

(** ** Defaults declared by the [Community] schema *)

Module Community.

(** The [default] of every field of [cattleSettings]. *)
Definition cattleSettings : Settings.t :=
  {| Settings.gestationDays := Some 283;
     Settings.dryOffAfterSuccessfulInsemDays := Some 220;
     Settings.changeFeedAfterSuccessfulInsemDays := Some 210;
     Settings.postpartumInseminationStartDays := Some 45;
     Settings.inseminationIntervalDays := Some 21;
     Settings.calvingAlertBeforeDays := Some 7;
     Settings.dryOffAlertBeforeDays := Some 7;
     Settings.changeFeedAlertBeforeDays := Some 7;
     Settings.pregnancyCheckAlertBeforeDays := Some 7;
     Settings.inseminationAlertBeforeDays := Some 7;
     Settings.graduationAlertBeforeDays := Some 30;
     Settings.weaningAlertBeforeDays := Some 7;
     Settings.femaleWeaningDays := Some 60;
     Settings.maleWeaningDays := Some 60;
     Settings.femaleMaturityMonths := Some 24;
     Settings.maleMaturityMonths := Some 24 |}.

End Community.

(** ** Vocabulary of the statements and concrete scenarios *)

Module Vocabulary.

(** A value that is present but 0, read as absent. *)
Definition dropZero (v : option Z) : option Z :=
  match v with
  | Some 0 => None
  | _ => v
  end.

(** The settings document in which every core timing parameter that is
    present but 0 has been removed; the other fields are unchanged. *)
Definition coreZeroAsAbsent (s : Settings.t) : Settings.t :=
  {| Settings.gestationDays := dropZero (Settings.gestationDays s);
     Settings.dryOffAfterSuccessfulInsemDays :=
       dropZero (Settings.dryOffAfterSuccessfulInsemDays s);
     Settings.changeFeedAfterSuccessfulInsemDays :=
       dropZero (Settings.changeFeedAfterSuccessfulInsemDays s);
     Settings.postpartumInseminationStartDays :=
       dropZero (Settings.postpartumInseminationStartDays s);
     Settings.inseminationIntervalDays :=
       dropZero (Settings.inseminationIntervalDays s);
     Settings.calvingAlertBeforeDays := Settings.calvingAlertBeforeDays s;
     Settings.dryOffAlertBeforeDays := Settings.dryOffAlertBeforeDays s;
     Settings.changeFeedAlertBeforeDays := Settings.changeFeedAlertBeforeDays s;
     Settings.pregnancyCheckAlertBeforeDays :=
       Settings.pregnancyCheckAlertBeforeDays s;
     Settings.inseminationAlertBeforeDays :=
       Settings.inseminationAlertBeforeDays s;
     Settings.graduationAlertBeforeDays := Settings.graduationAlertBeforeDays s;
     Settings.weaningAlertBeforeDays := Settings.weaningAlertBeforeDays s;
     Settings.femaleWeaningDays := Settings.femaleWeaningDays s;
     Settings.maleWeaningDays := Settings.maleWeaningDays s;
     Settings.femaleMaturityMonths := Settings.femaleMaturityMonths s;
     Settings.maleMaturityMonths := Settings.maleMaturityMonths s |}.

(** [l] is the record of the cow that a stable sort of her records by
    descending date puts first: every record of the cow before [l] in the
    collection is strictly older, and none after it is more recent. *)
Definition mostRecent (cow : Cow.t) (insems : list Insem.t) (l : Insem.t)
    : Prop :=
  exists pre post,
    insems = pre ++ l :: post /\
    Insem.cowId l = Cow._id cow /\
    Forall (fun r => Insem.cowId r = Cow._id cow ->
                     Insem.date r < Insem.date l) pre /\
    Forall (fun r => Insem.cowId r = Cow._id cow ->
                     Insem.date r <= Insem.date l) post.

(** [c] is a live (not undone) confirmation of the milestone [e]: same
    entity, same milestone type, same UTC calendar day. *)
Definition confirms (c : Confirmation.t) (e : Ev.t) : Prop :=
  Confirmation.undone c = false /\
  Confirmation.entityType c = Ev.etype (Ev.entity e) /\
  Confirmation.entityId c = Ev.id (Ev.entity e) /\
  Confirmation.type c = Ev.type e /\
  ESDate.Day (Confirmation.when c) = ESDate.Day (Ev.when e).

(** A string without [":"], such as an entity type or a printed ObjectId. *)
Fixpoint colonFree (s : string) : Prop :=
  match s with
  | EmptyString => True
  | String a s' => a <> ":"%char /\ colonFree s'
  end.

(** Dates whose UTC year is written on four digits by [toISOString]. *)
Definition fourDigitYear (t : Z) : Prop :=
  0 <= ESDate.YearFromTime t <= 9999.

(** The text [yyyy-mm-dd] of the UTC calendar day of [t]. *)
Definition isoDate10 (t : Z) : string :=
  JS.padNum 4 (ESDate.YearFromTime t) +:+ "-"
    +:+ JS.padNum 2 (ESDate.MonthFromTime t + 1) +:+ "-"
    +:+ JS.padNum 2 (ESDate.DateFromTime t).

End Vocabulary.

Module Scenario.
Import ESDate.

(** A server in UTC. *)
Definition utcHost : zone := fixedZone 0.

(** A server on the rules of America/New_York for 2024: Eastern Standard
    Time (UTC-5), and Eastern Daylight Time (UTC-4) from 2024-03-10 07:00
    UTC (02:00 local) to 2024-11-03 06:00 UTC (02:00 local).  A local time
    that the spring transition skips is read back with the standard offset,
    one that the autumn transition repeats with the daylight offset. *)
Definition easternTime : zone :=
  {| offsetAt := fun t =>
       if (DateUTC 2024 2 10 + 7 * msPerHour <=? t)
          && (t <? DateUTC 2024 10 3 + 6 * msPerHour)
       then - 4 * msPerHour else - 5 * msPerHour;
     offsetOfLocal := fun t =>
       if (DateUTC 2024 2 10 + 3 * msPerHour <=? t)
          && (t <? DateUTC 2024 10 3 + 2 * msPerHour)
       then - 4 * msPerHour else - 5 * msPerHour |}.

Definition cowId : string := "65a000000000000000000001".
Definition calfId : string := "65a0000000000000000000c1".

Definition bella (lastCalving : option Z) : Cow.t :=
  {| Cow._id := cowId; Cow.cowNumber := Some "17";
     Cow.cowName := Some "Bella"; Cow.lastCalving := lastCalving |}.

(** An insemination of Bella. *)
Definition attempt (id : string) (date : Z) (confirmedPregnant failed : bool)
    : Insem.t :=
  {| Insem._id := id; Insem.cowId := cowId; Insem.date := date;
     Insem.confirmedPregnant := confirmedPregnant; Insem.failed := failed;
     Insem.forced := false |}.

(** Settings with the two values of the pregnancy scenario. *)
Definition settings283 : Settings.t :=
  {| Settings.gestationDays := Some 283;
     Settings.dryOffAfterSuccessfulInsemDays := Some 220;
     Settings.changeFeedAfterSuccessfulInsemDays := None;
     Settings.postpartumInseminationStartDays := None;
     Settings.inseminationIntervalDays := Some 21;
     Settings.calvingAlertBeforeDays := Some 0;
     Settings.dryOffAlertBeforeDays := Some 0;
     Settings.changeFeedAlertBeforeDays := Some 0;
     Settings.pregnancyCheckAlertBeforeDays := Some 0;
     Settings.inseminationAlertBeforeDays := Some 0;
     Settings.graduationAlertBeforeDays := Some 0;
     Settings.weaningAlertBeforeDays := Some 0;
     Settings.femaleWeaningDays := None;
     Settings.maleWeaningDays := None;
     Settings.femaleMaturityMonths := Some 24;
     Settings.maleMaturityMonths := None |}.

(** Settings whose gestation length and lead times are all 0. *)
Definition zeroSettings : Settings.t :=
  {| Settings.gestationDays := Some 0;
     Settings.dryOffAfterSuccessfulInsemDays := Some 220;
     Settings.changeFeedAfterSuccessfulInsemDays := Some 260;
     Settings.postpartumInseminationStartDays := Some 60;
     Settings.inseminationIntervalDays := Some 90;
     Settings.calvingAlertBeforeDays := Some 0;
     Settings.dryOffAlertBeforeDays := Some 0;
     Settings.changeFeedAlertBeforeDays := Some 0;
     Settings.pregnancyCheckAlertBeforeDays := Some 0;
     Settings.inseminationAlertBeforeDays := Some 0;
     Settings.graduationAlertBeforeDays := Some 0;
     Settings.weaningAlertBeforeDays := Some 0;
     Settings.femaleWeaningDays := None;
     Settings.maleWeaningDays := None;
     Settings.femaleMaturityMonths := None;
     Settings.maleMaturityMonths := None |}.

Definition calf (status : Calf.status_t) (graduated : bool) : Calf.t :=
  {| Calf._id := calfId; Calf.calfName := Some "Daisy";
     Calf.birthDate := Some (DateUTC 2024 0 1); Calf.gender := Some "female";
     Calf.status := status; Calf.graduated := graduated |}.

(** A calving milestone of Bella due at [when]. *)
Definition calvingDue (when : Z) : Ev.t :=
  {| Ev.when := when; Ev.alertDate := when - 10 * msPerDay;
     Ev.type := "calving"; Ev.label := "Estimated Calving";
     Ev.entity := {| Ev.etype := "cow"; Ev.id := cowId; Ev.name := "Bella" |};
     Ev.meta := Ev.metaEmpty |}.

(** A confirmation of a calving milestone of Bella. *)
Definition calvingDone (id : string) (when : Z) (undone : bool)
    : Confirmation.t :=
  {| Confirmation._id := id; Confirmation.entityType := "cow";
     Confirmation.entityId := cowId; Confirmation.type := "calving";
     Confirmation.when := when; Confirmation.alertOn := None;
     Confirmation.note := ""; Confirmation.undone := undone |}.

(** The clock of the scenarios: 2024-06-01T00:00:00Z. *)
Definition clock : Z := DateUTC 2024 5 1.

(** A history with a confirmed attempt on 2024-01-01 and two older ones. *)
Definition history : list Insem.t :=
  [ attempt "65a0000000000000000000a1" (DateUTC 2023 0 10) false true;
    attempt "65a0000000000000000000a2" (DateUTC 2024 0 1) true false;
    attempt "65a0000000000000000000a3" (DateUTC 2023 5 1) false false ].

Definition confirmedAttempt : Insem.t :=
  attempt "65a0000000000000000000a2" (DateUTC 2024 0 1) true false.

Definition failedAttempt : Insem.t :=
  attempt "65a0000000000000000000a4" (DateUTC 2024 0 1) false true.




(** An attempt of 2024-01-01 that is still pending. *)
Definition pendingAttempt : Insem.t :=
  attempt "65a0000000000000000000a7" (DateUTC 2024 0 1) false false.

(** A calf that died, and a calf that already graduated. *)
Definition lostCalf : Calf.t := calf Calf.died false.
Definition grownCalf : Calf.t := calf Calf.alive true.

(** Bella calved on 9999-12-15 and has no insemination on record: the
    earliest next insemination falls on 10000-02-13. *)
Definition farInput : Alerts.input :=
  {| Alerts.cows := [bella (Some (DateUTC 9999 11 15))];
     Alerts.calves := [];
     Alerts.settings := None;
     Alerts.insems := [];
     Alerts.confirmations :=
       [ {| Confirmation._id := "65a0000000000000000000f1";
            Confirmation.entityType := "cow";
            Confirmation.entityId := cowId;
            Confirmation.type := "insemination";
            Confirmation.when := DateUTC 10000 1 1;
            Confirmation.alertOn := None;
            Confirmation.note := "";
            Confirmation.undone := false |} ] |}.

(** The day-jitter scenario: a calving due on 2024-03-05 at 23:00 and a
    confirmation stored for 2024-03-05 at 00:10 (UTC). *)
Definition lateDue : Ev.t := calvingDue (DateUTC 2024 2 5 + 23 * msPerHour).
Definition earlyDone (undone : bool) : Confirmation.t :=
  calvingDone "65a0000000000000000000d1"
    (DateUTC 2024 2 5 + 10 * msPerMinute) undone.

(** A herd for the calendar view: Bella pregnant since 2024-01-01. *)
Definition herd : Alerts.input :=
  {| Alerts.cows := [bella None];
     Alerts.calves := [calf Calf.alive false];
     Alerts.settings := Some settings283;
     Alerts.insems := history;
     Alerts.confirmations := [] |}.

End Scenario.

(** * Properties *)

(** ** Calendar arithmetic *)

Module ESDateFacts.
Import ESDate.

(** [YearFromDay] meets the specification of [YearFromTime]: it is the year
    whose first day is the last one not after [d]. *)
Lemma YearFromDay_spec d :
  DayFromYear (YearFromDay d) <= d < DayFromYear (YearFromDay d + 1).
Proof.
  unfold YearFromDay.
  set (y0 := 1970 + d * 400 / 146097).
  assert (H : DayFromYear (y0 - 1) <= d < DayFromYear (y0 + 2)).
  { unfold DayFromYear, y0. Z.to_euclidean_division_equations; lia. }
  destruct (Z.leb_spec (DayFromYear (y0 + 1)) d).
  - replace (y0 + 1 + 1) with (y0 + 2) by lia. lia.
  - destruct (Z.ltb_spec d (DayFromYear y0)).
    + replace (y0 - 1 + 1) with y0 by lia. lia.
    + lia.
Qed.

Lemma DayFromYear_succ y : DayFromYear (y + 1) = DayFromYear y + DaysInYear y.
Proof.
  unfold DayFromYear, DaysInYear.
  repeat match goal with
         | |- context [Z.eqb ?a ?b] => destruct (Z.eqb_spec a b)
         end; simpl; Z.to_euclidean_division_equations; lia.
Qed.

Lemma DayWithinYear_range t :
  0 <= DayWithinYear t < DaysInYear (YearFromTime t).
Proof.
  unfold DayWithinYear, YearFromTime.
  pose proof (YearFromDay_spec (Day t)) as H.
  rewrite DayFromYear_succ in H. lia.
Qed.

Lemma MonthFromTime_range t : 0 <= MonthFromTime t <= 11.
Proof.
  unfold MonthFromTime.
  repeat match goal with
         | |- context [Z.ltb ?a ?b] => destruct (Z.ltb a b)
         end; lia.
Qed.

Lemma DateFromTime_range t : 1 <= DateFromTime t <= 31.
Proof.
  pose proof (DayWithinYear_range t) as Hd.
  unfold DateFromTime, MonthFromTime, InLeapYear in *.
  set (d := DayWithinYear t) in *.
  destruct (Z.eqb_spec (DaysInYear (YearFromTime t)) 366) as [E|E].
  - rewrite E in Hd.
    repeat match goal with
           | |- context [Z.ltb ?a ?b] => destruct (Z.ltb_spec a b)
           end; cbn; lia.
  - assert (DaysInYear (YearFromTime t) = 365).
    { unfold DaysInYear in *.
      repeat match goal with
             | |- context [Z.eqb ?a ?b] => destruct (Z.eqb a b)
             end; simpl in *; lia. }
    repeat match goal with
           | |- context [Z.ltb ?a ?b] => destruct (Z.ltb_spec a b)
           end; cbn; lia.
Qed.

(** [MakeDay] on the year and month of [t]: the day of [t], moved by the
    difference of the dates. *)
Lemma MakeDay_current t dt :
  MakeDay (YearFromTime t) (MonthFromTime t) dt = Day t - DateFromTime t + dt.
Proof.
  pose proof (MonthFromTime_range t) as Hm.
  unfold MakeDay.
  replace (MonthFromTime t / 12) with 0
    by (Z.to_euclidean_division_equations; lia).
  replace (MonthFromTime t mod 12) with (MonthFromTime t)
    by (Z.to_euclidean_division_equations; lia).
  rewrite Z.add_0_r.
  unfold DateFromTime, DayWithinYear, InLeapYear. lia.
Qed.

Lemma MakeDate_Day_TimeWithinDay t : MakeDate (Day t) (TimeWithinDay t) = t.
Proof.
  unfold MakeDate, Day, TimeWithinDay, msPerDay.
  Z.to_euclidean_division_equations; lia.
Qed.

Lemma TimeClip_Some t : TimeClip t = Some t <-> inTimeRange t.
Proof.
  unfold TimeClip, inTimeRange.
  destruct (Z.leb_spec (Z.abs t) maxTime); split; intros H'; try done; lia.
Qed.

Lemma LocalTime_fixed tza t : LocalTime (fixedZone tza) t = t + tza.
Proof. reflexivity. Qed.

Lemma UTC_fixed tza t : UTC (fixedZone tza) t = t - tza.
Proof. reflexivity. Qed.

(** [setDate] moves the local time by whole days, keeps the local time of
    day, and reads the result back as an instant. *)
Lemma setDate_local tz tv dt :
  setDate tz tv dt
  = UTC tz (LocalTime tz tv + (dt - getDate tz tv) * msPerDay).
Proof.
  unfold setDate, getDate. rewrite MakeDay_current. f_equal.
  set (t := LocalTime tz tv).
  pose proof (MakeDate_Day_TimeWithinDay t) as H. unfold MakeDate in *. lia.
Qed.

(** On a host with a fixed offset that is a shift by whole days. *)
Lemma setDate_shift tza tv dt :
  setDate (fixedZone tza) tv dt
  = tv + (dt - getDate (fixedZone tza) tv) * msPerDay.
Proof. rewrite setDate_local, UTC_fixed, LocalTime_fixed. lia. Qed.

(** [setHours(0,0,0,0)] is the local midnight before the time value. *)
Lemma setHours_midnight tz t :
  setHours tz t 0 0 0 0 = UTC tz (Day (LocalTime tz t) * msPerDay).
Proof. unfold setHours, MakeDate, MakeTime. f_equal. lia. Qed.

(** The calendar date is a function of the day number, and conversely. *)
Lemma civil_of_Day t1 t2 :
  Day t1 = Day t2 ->
  YearFromTime t1 = YearFromTime t2 /\
  MonthFromTime t1 = MonthFromTime t2 /\
  DateFromTime t1 = DateFromTime t2.
Proof.
  intros H.
  unfold DateFromTime, MonthFromTime, InLeapYear, DayWithinYear, YearFromTime.
  by rewrite H.
Qed.

Lemma Day_of_civil t1 t2 :
  YearFromTime t1 = YearFromTime t2 ->
  MonthFromTime t1 = MonthFromTime t2 ->
  DateFromTime t1 = DateFromTime t2 ->
  Day t1 = Day t2.
Proof.
  intros Hy Hm Hd.
  pose proof (MakeDay_current t1 (DateFromTime t1)) as H1.
  pose proof (MakeDay_current t2 (DateFromTime t2)) as H2.
  rewrite Hy, Hm, Hd in H1. lia.
Qed.

End ESDateFacts.

(** ** Sorting: [Array.prototype.sort] as a stable insertion sort *)

Module SortFacts.
Import JS.

Section Sort.
Context {A : Type} (cmp : A -> A -> Z).

Lemma insertBy_Permutation x l : insertBy cmp x l ≡ₚ x :: l.
Proof.
  induction l as [|y l IH]; simpl; [done|].
  destruct (cmp x y <=? 0); [done|].
  rewrite IH. apply Permutation_swap.
Qed.

Lemma sortBy_Permutation l : sortBy cmp l ≡ₚ l.
Proof.
  induction l as [|x l IH]; simpl; [done|].
  by rewrite insertBy_Permutation, IH.
Qed.

Lemma elem_of_sortBy x l : x ∈ sortBy cmp l <-> x ∈ l.
Proof. by rewrite sortBy_Permutation. Qed.

Lemma length_sortBy l : length (sortBy cmp l) = length l.
Proof. by rewrite sortBy_Permutation. Qed.

(** Stability: an element that sorts strictly before everything on its left
    and not after anything on its right comes out first. *)
Lemma head_sortBy_first pre x post :
  Forall (fun y => 0 < cmp y x) pre ->
  Forall (fun y => cmp x y <= 0) post ->
  head (sortBy cmp (pre ++ x :: post)) = Some x.
Proof.
  intros Hpre Hpost. induction Hpre as [|y pre Hy _ IH]; simpl.
  - destruct (sortBy cmp post) as [|h r] eqn:E; simpl; [done|].
    assert (Hh : h ∈ post) by (apply elem_of_sortBy; rewrite E; left).
    rewrite Forall_forall in Hpost. apply Hpost in Hh.
    by destruct (Z.leb_spec (cmp x h) 0); [|lia].
  - destruct (sortBy cmp (pre ++ x :: post)) as [|h r]; simplify_eq/=.
    by destruct (Z.leb_spec (cmp y x) 0); [lia|].
Qed.

(** A sorted array is left as it is. *)
Lemma sortBy_sorted_id l :
  StronglySorted (fun a b => cmp a b <= 0) l -> sortBy cmp l = l.
Proof.
  induction 1 as [|x l _ IH Hx]; simpl; [done|]. rewrite IH.
  destruct l as [|y l]; simpl; [done|].
  apply Forall_cons in Hx as [Hxy _].
  by destruct (Z.leb_spec (cmp x y) 0); [|lia].
Qed.

Section Ordered.
Hypothesis cmp_total : forall x y, cmp x y <= 0 \/ cmp y x <= 0.
Hypothesis cmp_trans :
  forall x y z, cmp x y <= 0 -> cmp y z <= 0 -> cmp x z <= 0.

Lemma insertBy_sorted x l :
  StronglySorted (fun a b => cmp a b <= 0) l ->
  StronglySorted (fun a b => cmp a b <= 0) (insertBy cmp x l).
Proof.
  induction 1 as [|y l Hl IH Hy]; simpl.
  - repeat constructor.
  - destruct (Z.leb_spec (cmp x y) 0) as [Hxy|Hxy].
    + constructor; [by constructor|].
      constructor; [done|].
      eapply Forall_impl; [exact Hy|]. intros z Hz. by eapply cmp_trans.
    + constructor; [done|].
      rewrite insertBy_Permutation. constructor; [|done].
      destruct (cmp_total x y); [lia|done].
Qed.

Lemma sortBy_sorted l :
  StronglySorted (fun a b => cmp a b <= 0) (sortBy cmp l).
Proof.
  induction l as [|x l IH]; simpl; [constructor|by apply insertBy_sorted].
Qed.

Lemma head_sortBy_least l x :
  head (sortBy cmp l) = Some x ->
  x ∈ l /\ forall y, y ∈ l -> cmp x y <= 0.
Proof.
  intros Hh. pose proof (sortBy_sorted l) as Hs.
  destruct (sortBy cmp l) as [|h r] eqn:E; simplify_eq/=.
  assert (Hx : x ∈ l) by (apply elem_of_sortBy; rewrite E; left).
  split; [done|]. intros y Hy.
  apply elem_of_sortBy in Hy. rewrite E in Hy.
  apply StronglySorted_inv in Hs as [_ Hall].
  apply elem_of_cons in Hy as [->|Hy].
  - destruct (cmp_total x x); done.
  - rewrite Forall_forall in Hall. by apply Hall.
Qed.
End Ordered.
End Sort.

Lemma StronglySorted_weaken {A} (R R' : A -> A -> Prop) l :
  (forall x y, R x y -> R' x y) -> StronglySorted R l -> StronglySorted R' l.
Proof.
  intros HR. induction 1 as [|x l _ IH Hx]; constructor; [done|].
  eapply Forall_impl; [exact Hx|]. auto.
Qed.

Lemma elem_of_take_in {A} (x : A) n l : x ∈ take n l -> x ∈ l.
Proof. apply subseteq_take. Qed.

Lemma StronglySorted_take {A} (R : A -> A -> Prop) n l :
  StronglySorted R l -> StronglySorted R (take n l).
Proof.
  intros H. revert n. induction H as [|x l _ IH Hx]; intros [|n]; simpl;
    try constructor; [apply IH|].
  apply Forall_forall. intros y Hy. rewrite Forall_forall in Hx.
  apply Hx. by eapply elem_of_take_in.
Qed.

Lemma StronglySorted_app_le {A} (R : A -> A -> Prop) l1 l2 x y :
  StronglySorted R (l1 ++ l2) -> x ∈ l1 -> y ∈ l2 -> R x y.
Proof.
  induction l1 as [|a l1 IH]; simpl; intros Hs Hx Hy;
    [by apply elem_of_nil in Hx|].
  apply StronglySorted_inv in Hs as [Hs Ha].
  apply elem_of_cons in Hx as [->|Hx]; [|by apply IH].
  rewrite Forall_forall in Ha. apply Ha. apply elem_of_app. by right.
Qed.

(** Sorting on an integer key, ascending. *)
Lemma sortBy_key_asc {A} (key : A -> Z) l :
  StronglySorted (fun x y => key x <= key y)
    (sortBy (fun a b => key a - key b) l).
Proof.
  eapply StronglySorted_weaken; [|apply sortBy_sorted]; simpl; intros; lia.
Qed.

(** Head of an array sorted on an integer key, descending. *)
Lemma head_sortBy_key_desc {A} (key : A -> Z) l x :
  head (sortBy (fun a b => key b - key a) l) = Some x ->
  x ∈ l /\ forall y, y ∈ l -> key y <= key x.
Proof.
  intros H. apply head_sortBy_least in H as [Hx Hall]; [|intros; lia..].
  split; [done|]. intros y Hy. specialize (Hall y Hy). simpl in Hall. lia.
Qed.

Lemma filter_all {A} (P : A -> Prop) `{!forall x, Decision (P x)}
    (l : list A) :
  Forall P l -> filter P l = l.
Proof.
  induction 1 as [|x l Hx _ IH]; [done|].
  by rewrite filter_cons_True, IH.
Qed.

End SortFacts.

(** ** Strings: the confirmation key *)

Module KeyFacts.
Import ESDate JS Alerts Vocabulary ESDateFacts.

Lemma app_string_cons a s r : String a s +:+ r = String a (s +:+ r).
Proof. reflexivity. Qed.

Lemma app_string_nil r : "" +:+ r = r.
Proof. reflexivity. Qed.

Lemma length_app_string s r :
  String.length (s +:+ r) = (String.length s + String.length r)%nat.
Proof.
  induction s as [|a s IH]; [done|].
  rewrite app_string_cons. simpl. by rewrite IH.
Qed.

Lemma app_string_assoc s r u : (s +:+ r) +:+ u = s +:+ (r +:+ u).
Proof.
  induction s as [|a s IH]; [done|].
  rewrite !app_string_cons. by rewrite IH.
Qed.

Lemma app_string_inj_length s1 s2 r1 r2 :
  String.length s1 = String.length s2 ->
  s1 +:+ r1 = s2 +:+ r2 -> s1 = s2 /\ r1 = r2.
Proof.
  revert s2. induction s1 as [|a s1 IH]; intros [|b s2] Hl H;
    rewrite ?app_string_cons, ?app_string_nil in H; try discriminate Hl;
    [done|].
  injection H as -> H. injection Hl as Hl.
  destruct (IH s2 Hl H) as [-> ->]. done.
Qed.

(** A prefix without colon is delimited by the first colon. *)
Lemma app_string_inj_colon a a' r r' :
  colonFree a -> colonFree a' ->
  a +:+ ":" +:+ r = a' +:+ ":" +:+ r' -> a = a' /\ r = r'.
Proof.
  change (":" +:+ r) with (String ":" r).
  change (":" +:+ r') with (String ":" r').
  revert a'. induction a as [|x a IH]; intros [|y a'] Ha Ha' H;
    rewrite ?app_string_cons, ?app_string_nil in H.
  - by injection H as ->.
  - injection H as <- _. by destruct Ha'.
  - injection H as -> _. by destruct Ha.
  - injection H as -> H. destruct Ha as [_ Ha], Ha' as [_ Ha'].
    destruct (IH a' Ha Ha' H) as [-> ->]. done.
Qed.

(** A suffix of known length is delimited by its length. *)
Lemma app_string_inj_tail c c' d d' :
  String.length d = String.length d' ->
  c +:+ ":" +:+ d = c' +:+ ":" +:+ d' -> c = c' /\ d = d'.
Proof.
  intros Hl H.
  assert (Hc : String.length c = String.length c').
  { apply (f_equal String.length) in H. rewrite !length_app_string in H.
    simpl in H. lia. }
  destruct (app_string_inj_length _ _ _ _ Hc H) as [-> H'].
  by apply (inj (String.app _)) in H' as ->.
Qed.

Lemma substring_app_exact n s r :
  String.length s = n -> String.substring 0 n (s +:+ r) = s.
Proof.
  revert n. induction s as [|a s IH]; intros [|n] Hl; try discriminate Hl.
  - rewrite app_string_nil. by destruct r.
  - injection Hl as Hl. rewrite app_string_cons. simpl. by rewrite IH.
Qed.

Lemma length_padNum w n : String.length (padNum w n) = w.
Proof.
  revert n. induction w as [|w IH]; intros n; simpl; [done|].
  rewrite length_app_string, IH. simpl. lia.
Qed.

Lemma digitChar_inj n m :
  0 <= n < 10 -> 0 <= m < 10 -> digitChar n = digitChar m -> n = m.
Proof.
  intros Hn Hm H. unfold digitChar in H.
  apply (f_equal nat_of_ascii) in H.
  rewrite !nat_ascii_embedding in H by lia. lia.
Qed.

Lemma padNum_inj w n m :
  0 <= n < 10 ^ Z.of_nat w -> 0 <= m < 10 ^ Z.of_nat w ->
  padNum w n = padNum w m -> n = m.
Proof.
  revert n m. induction w as [|w IH]; intros n m Hn Hm H.
  - simpl in Hn, Hm. lia.
  - simpl in H.
    apply app_string_inj_length in H as [H1 H2]; [|by rewrite !length_padNum].
    injection H2 as H2.
    rewrite Nat2Z.inj_succ, Z.pow_succ_r in Hn, Hm by lia.
    apply digitChar_inj in H2; [|Z.to_euclidean_division_equations; lia..].
    apply IH in H1; [|Z.to_euclidean_division_equations; lia..].
    Z.to_euclidean_division_equations; lia.
Qed.

(** Two dates written [yyyy-mm-dd] agree when their fields agree. *)
Lemma ymd_string_inj (y1 m1 d1 y2 m2 d2 : string) :
  String.length y1 = String.length y2 ->
  String.length m1 = String.length m2 ->
  y1 +:+ "-" +:+ m1 +:+ "-" +:+ d1 = y2 +:+ "-" +:+ m2 +:+ "-" +:+ d2 ->
  y1 = y2 /\ m1 = m2 /\ d1 = d2.
Proof.
  intros Hy Hm H.
  apply app_string_inj_length in H as [-> H]; [|done].
  apply (inj (String.app _)) in H.
  apply app_string_inj_length in H as [-> H]; [|done].
  by apply (inj (String.app _)) in H as ->.
Qed.

Lemma length_isoDate10 t : String.length (isoDate10 t) = 10%nat.
Proof.
  unfold isoDate10. rewrite !length_app_string, !length_padNum. reflexivity.
Qed.

(** For a four-digit year, [toISOString().slice(0, 10)] is the calendar
    day. *)
Lemma slice_toISOString t :
  fourDigitYear t -> slice0 10 (toISOString t) = isoDate10 t.
Proof.
  intros [H0 H9]. unfold slice0, toISOString, isoYear.
  destruct (Z.leb_spec 0 (YearFromTime t)); [|lia].
  destruct (Z.leb_spec (YearFromTime t) 9999); [|lia]. cbn [andb].
  set (a := padNum 4 (YearFromTime t)).
  set (b := padNum 2 (MonthFromTime t + 1)).
  set (c := padNum 2 (DateFromTime t)).
  set (rest := "T" +:+ _).
  replace (a +:+ "-" +:+ b +:+ "-" +:+ c +:+ rest)
    with ((a +:+ "-" +:+ b +:+ "-" +:+ c) +:+ rest).
  - apply substring_app_exact. apply length_isoDate10.
  - rewrite !app_string_assoc. reflexivity.
Qed.

Lemma isoDate10_inj t1 t2 :
  fourDigitYear t1 -> fourDigitYear t2 ->
  isoDate10 t1 = isoDate10 t2 <-> Day t1 = Day t2.
Proof.
  intros Hy1 Hy2. split.
  - unfold isoDate10. intros H.
    pose proof (MonthFromTime_range t1). pose proof (MonthFromTime_range t2).
    pose proof (DateFromTime_range t1). pose proof (DateFromTime_range t2).
    apply ymd_string_inj in H as (Hy & Hm & Hd);
      [|by rewrite !length_padNum..].
    apply padNum_inj in Hy; [|unfold fourDigitYear in *; simpl; lia..].
    apply padNum_inj in Hm; [|simpl; lia..].
    apply padNum_inj in Hd; [|simpl; lia..].
    apply Day_of_civil; [done|lia|done].
  - intros H. apply civil_of_Day in H as (Hy & Hm & Hd).
    unfold isoDate10. by rewrite Hy, Hm, Hd.
Qed.

(** Key equality is equality of the four components, the dates being
    compared by UTC calendar day. *)
Lemma confirmationKey_eq_confKey c e :
  colonFree (Confirmation.entityType c) ->
  colonFree (Confirmation.entityId c) ->
  colonFree (Ev.etype (Ev.entity e)) -> colonFree (Ev.id (Ev.entity e)) ->
  fourDigitYear (Confirmation.when c) -> fourDigitYear (Ev.when e) ->
  confirmationKey c = confKey e <->
  Confirmation.entityType c = Ev.etype (Ev.entity e) /\
  Confirmation.entityId c = Ev.id (Ev.entity e) /\
  Confirmation.type c = Ev.type e /\
  Day (Confirmation.when c) = Day (Ev.when e).
Proof.
  intros Hc1 Hc2 He1 He2 Hyc Hye. unfold confirmationKey, confKey.
  rewrite !slice_toISOString by done.
  rewrite <- (isoDate10_inj _ _ Hyc Hye). split.
  - intros H.
    apply app_string_inj_colon in H as [H1 H]; [|done..].
    apply app_string_inj_colon in H as [H2 H]; [|done..].
    apply app_string_inj_tail in H as [H3 H4]; [done|].
    by rewrite !length_isoDate10.
  - intros (-> & -> & -> & ->). done.
Qed.

End KeyFacts.

(** ** The reproductive state calculator *)

Module EngineFacts.
Import ESDate JS Engine Vocabulary Scenario ESDateFacts SortFacts.

(** [x.setDate(x.getDate() + n)] moves [x] by [n] whole days. *)
(** [addDays]: the same local time of day, [n] calendar days later. *)
Lemma addDays_local tz d n :
  addDays tz d n = UTC tz (LocalTime tz d + n * msPerDay).
Proof. unfold addDays. rewrite setDate_local. repeat f_equal. lia. Qed.

(** Where the offset by which the result is read back is the offset in
    force at [d], that is [n] times 24 hours. *)
Lemma addDays_same_offset tz d n :
  offsetOfLocal tz (LocalTime tz d + n * msPerDay) = offsetAt tz d ->
  addDays tz d n = d + n * msPerDay.
Proof. intros H. rewrite addDays_local. unfold UTC, LocalTime in *. lia. Qed.

Lemma addDays_shift tza d n :
  addDays (fixedZone tza) d n = d + n * msPerDay.
Proof. by apply addDays_same_offset. Qed.

Lemma latest_eq tz now cow settings insems :
  Repro.latest (buildPregnancyInfo tz now cow settings insems)
  = head (recordsOf cow insems).
Proof. reflexivity. Qed.

(** [latest] is a record of the cow, and none of the cow's records is dated
    after it. *)
Lemma latest_spec tz now cow settings insems l :
  Repro.latest (buildPregnancyInfo tz now cow settings insems) = Some l ->
  l ∈ insems /\ Insem.cowId l = Cow._id cow /\
  forall r, r ∈ insems -> Insem.cowId r = Cow._id cow ->
            Insem.date r <= Insem.date l.
Proof.
  rewrite latest_eq. unfold recordsOf. intros H.
  apply head_sortBy_key_desc in H as [Hl Hmax].
  apply list_elem_of_filter in Hl as [Hc Hl]. repeat split; [done..|].
  intros r Hr Hrc. apply Hmax. by apply list_elem_of_filter.
Qed.

(** The sort is stable: among the cow's records of the greatest date,
    [latest] is the first one of the collection. *)
Lemma latest_first_greatest tz now cow settings pre l post :
  Insem.cowId l = Cow._id cow ->
  Forall (fun r => Insem.cowId r = Cow._id cow ->
                   Insem.date r < Insem.date l) pre ->
  Forall (fun r => Insem.cowId r = Cow._id cow ->
                   Insem.date r <= Insem.date l) post ->
  Repro.latest (buildPregnancyInfo tz now cow settings (pre ++ l :: post))
  = Some l.
Proof.
  intros Hl Hpre Hpost. rewrite latest_eq. unfold recordsOf.
  rewrite filter_app, filter_cons_True by done.
  apply head_sortBy_first; apply Forall_forall; intros r Hr;
    apply list_elem_of_filter in Hr as [Hc Hr].
  - rewrite Forall_forall in Hpre. specialize (Hpre r Hr Hc). lia.
  - rewrite Forall_forall in Hpost. specialize (Hpost r Hr Hc). lia.
Qed.

Lemma recordsOf_single cow e :
  Insem.cowId e = Cow._id cow -> recordsOf cow [e] = [e].
Proof.
  intros H. unfold recordsOf. rewrite filter_cons_True by done. reflexivity.
Qed.

(** The record the code takes as [latest]. *)
Lemma mostRecent_head cow insems l :
  mostRecent cow insems l -> head (recordsOf cow insems) = Some l.
Proof.
  intros (pre & post & -> & Hl & Hpre & Hpost).
  rewrite <- (latest_eq (fixedZone 0) 0 cow None).
  by apply latest_first_greatest.
Qed.

(** The branch taken when the latest record is a confirmed pregnancy that no
    later calving has closed. *)
Lemma pregnant_branch tz now cow settings insems l :
  head (recordsOf cow insems) = Some l ->
  Insem.confirmedPregnant l = true ->
  (forall lc, Cow.lastCalving cow = Some lc -> lc <= Insem.date l) ->
  let r := buildPregnancyInfo tz now cow settings insems in
  Repro.status r = Repro.Pregnant /\
  Repro.conceptionDate r = Some (Insem.date l) /\
  Repro.estCalving r =
    Some (addDays tz (Insem.date l)
            (orFalsy (field settings Settings.gestationDays) 283)) /\
  Repro.dryOffDate r =
    Some (addDays tz (Insem.date l)
            (orFalsy (field settings Settings.dryOffAfterSuccessfulInsemDays)
               220)) /\
  Repro.changeFeedDate r =
    Some (addDays tz (Insem.date l)
            (orFalsy (field settings
                        Settings.changeFeedAfterSuccessfulInsemDays) 260)).
Proof.
  intros Hl Hp Hlc. cbv zeta.
  unfold buildPregnancyInfo. rewrite Hl.
  unfold reopen, staleCycle, latestBranch. rewrite Hp. cbn.
  assert (Hs : match Cow.lastCalving cow with
               | Some lc => Insem.date l <? lc
               | None => false
               end = false).
  { destruct (Cow.lastCalving cow) as [lc|]; [|done].
    specialize (Hlc lc eq_refl). apply Z.ltb_ge. lia. }
  rewrite Hs. cbn. done.
Qed.


(** The branch taken when the latest record is a confirmed pregnancy,
    whatever its [failed] flag: the test of [confirmedPregnant] comes
    first. *)
Lemma confirmed_first tz now cow settings insems l :
  head (recordsOf cow insems) = Some l ->
  Insem.confirmedPregnant l = true ->
  Cow.lastCalving cow = None ->
  let r := buildPregnancyInfo tz now cow settings insems in
  Repro.status r = Repro.Pregnant /\
  Repro.nextInseminationEarliest r = None.
Proof.
  intros Hl Hp Hc. cbv zeta. unfold buildPregnancyInfo. rewrite Hl, Hc.
  unfold reopen, staleCycle, latestBranch, mergePostpartum. rewrite Hp.
  done.
Qed.

(** Which state sets which date.  The four pregnancy dates are set exactly
    in the [Pregnant] state and [retryWindowEnd] exactly in the [Pending]
    state; [nextInseminationEarliest] is set when the latest record is a
    failed attempt and also, in every state, when the cow has a
    [lastCalving]. *)
Lemma dates_by_state tz now cow settings insems :
  let r := buildPregnancyInfo tz now cow settings insems in
  let stale (l : Insem.t) :=
    exists lc, Cow.lastCalving cow = Some lc /\ Insem.date l < lc in
  (Repro.status r = Repro.Pregnant <->
     exists l, Repro.latest r = Some l /\ Insem.confirmedPregnant l = true
               /\ ~ stale l) /\
  (Repro.status r = Repro.Pending <->
     exists l, Repro.latest r = Some l /\ Insem.confirmedPregnant l = false
               /\ Insem.failed l = false) /\
  (is_Some (Repro.conceptionDate r) <-> Repro.status r = Repro.Pregnant) /\
  (is_Some (Repro.estCalving r) <-> Repro.status r = Repro.Pregnant) /\
  (is_Some (Repro.dryOffDate r) <-> Repro.status r = Repro.Pregnant) /\
  (is_Some (Repro.changeFeedDate r) <-> Repro.status r = Repro.Pregnant) /\
  (is_Some (Repro.retryWindowEnd r) <-> Repro.status r = Repro.Pending) /\
  (is_Some (Repro.nextInseminationEarliest r) <->
     (exists l, Repro.latest r = Some l /\ Insem.confirmedPregnant l = false
                /\ Insem.failed l = true)
     \/ is_Some (Cow.lastCalving cow)).
Proof.
  cbv zeta. unfold buildPregnancyInfo.
  cbn [Repro.status Repro.latest Repro.conceptionDate Repro.estCalving
       Repro.dryOffDate Repro.changeFeedDate Repro.retryWindowEnd
       Repro.nextInseminationEarliest].
  destruct (head (recordsOf cow insems)) as [l|];
    unfold reopen, staleCycle, latestBranch, mergePostpartum, initLocals;
    [destruct (Insem.confirmedPregnant l) eqn:Hp;
       [|destruct (Insem.failed l) eqn:Hf]|];
    destruct (Cow.lastCalving cow) as [lc|] eqn:Hlc; cbn;
    try destruct (Z.ltb_spec (Insem.date l) lc); cbn;
    repeat match goal with
           | |- context [Z.ltb ?a ?b] => destruct (Z.ltb a b)
           end;
    rewrite ?is_Some_alt;
    repeat split; intros;
    repeat match goal with
           | H : exists _, _ |- _ => destruct H
           | H : _ /\ _ |- _ => destruct H
           | H : _ \/ _ |- _ => destruct H
           end;
    simplify_eq; try done; try lia; try congruence;
    try (by right);
    try (by left; eexists);
    try (by eexists);
    try (by right; right);
    try (by right; left);
    try (by left).
  all: try (exists l; repeat split; try done; intros (lc' & ? & ?);
            simplify_eq; try lia).
  exfalso. match goal with H : ~ _ |- _ => apply H end. eauto.
Qed.

Lemma orFalsy_dropZero v d : orFalsy (dropZero v) d = orFalsy v d.
Proof. destruct v as [[| |]|]; reflexivity. Qed.

End EngineFacts.

(** ** Claims about [buildPregnancyInfo] *)

Module ReproClaims.
Import ESDate JS Engine Alerts Vocabulary Scenario ESDateFacts EngineFacts.

(** C1 (reopening rule).  Whenever the latest breeding event of a cow is a
    confirmed pregnancy and the cow's [lastCalving] exists and is strictly
    after the date of that event, [buildPregnancyInfo] answers [Open] with
    [conceptionDate], [estCalving], [dryOffDate] and [changeFeedDate] all
    null, whatever the settings and the other events of the history. *)
Theorem reopening_rule tz now cow settings insems l lc :
  Repro.latest (buildPregnancyInfo tz now cow settings insems) = Some l ->
  Insem.confirmedPregnant l = true ->
  Cow.lastCalving cow = Some lc ->
  Insem.date l < lc ->
  let r := buildPregnancyInfo tz now cow settings insems in
  Repro.status r = Repro.Open /\
  Repro.conceptionDate r = None /\
  Repro.estCalving r = None /\
  Repro.dryOffDate r = None /\
  Repro.changeFeedDate r = None.
Proof.
  rewrite latest_eq. intros Hl Hp Hlc Hlt. cbv zeta.
  unfold buildPregnancyInfo. rewrite Hl, Hlc.
  unfold reopen, staleCycle, latestBranch. rewrite Hp. cbn.
  destruct (Z.ltb_spec (Insem.date l) lc); [|lia]. cbn. done.
Qed.

(** Bella, confirmed pregnant on 2024-01-01 after two older attempts, calved
    on 2024-10-12: the cycle is reopened. *)
Lemma reopening_rule_witness :
  Repro.status
    (buildPregnancyInfo utcHost clock (bella (Some (DateUTC 2024 9 12))) None
       history) = Repro.Open /\
  Repro.conceptionDate
    (buildPregnancyInfo utcHost clock (bella (Some (DateUTC 2024 9 12))) None
       history) = None /\
  Repro.estCalving
    (buildPregnancyInfo utcHost clock (bella (Some (DateUTC 2024 9 12))) None
       history) = None /\
  Repro.dryOffDate
    (buildPregnancyInfo utcHost clock (bella (Some (DateUTC 2024 9 12))) None
       history) = None /\
  Repro.changeFeedDate
    (buildPregnancyInfo utcHost clock (bella (Some (DateUTC 2024 9 12))) None
       history) = None.
Proof.
  apply (reopening_rule utcHost clock (bella (Some (DateUTC 2024 9 12))) None
           history confirmedAttempt (DateUTC 2024 9 12));
    vm_compute; reflexivity.
Defined.

(** C2, the claim as written, fails on a server that observes daylight
    saving time.  On Eastern time the single event stored for 2024-01-01
    (midnight UTC, 19:00 of the day before on the server) with
    [gestationDays = 283] and [dryOffAfterSuccessfulInsemDays = 220] gives
    [estCalving] = 2024-10-09T23:00Z and [dryOffDate] = 2024-08-07T23:00Z:
    one hour short of 283 and of 220 days, and neither 2024-10-10 nor
    2024-08-08, on the server's calendar as on the UTC calendar. *)
Lemma pregnant_projection_counterexample :
  let r :=
    buildPregnancyInfo easternTime clock (bella None) (Some settings283)
      [confirmedAttempt] in
  Repro.status r = Repro.Pregnant /\
  toISOString <$> Repro.estCalving r = Some "2024-10-09T23:00:00.000Z" /\
  toISOString <$> Repro.dryOffDate r = Some "2024-08-07T23:00:00.000Z" /\
  Repro.estCalving r = Some (DateUTC 2024 0 1 + 283 * msPerDay - msPerHour) /\
  Repro.dryOffDate r = Some (DateUTC 2024 0 1 + 220 * msPerDay - msPerHour) /\
  (fun t => (getFullYear easternTime t, getMonth easternTime t + 1,
             getDate easternTime t)) <$> Repro.estCalving r
  = Some (2024, 10, 9) /\
  (fun t => (getFullYear easternTime t, getMonth easternTime t + 1,
             getDate easternTime t)) <$> Repro.dryOffDate r
  = Some (2024, 8, 7) /\
  (fun t => t =? DateUTC 2024 9 10) <$> Repro.estCalving r = Some false /\
  (fun t => t =? DateUTC 2024 7 8) <$> Repro.dryOffDate r = Some false /\
  toISOString (DateUTC 2024 0 1 + 283 * msPerDay)
  = "2024-10-10T00:00:00.000Z".
Proof. cbv zeta. repeat split; vm_compute; reflexivity. Qed.

(** C2 (pregnant projection), amended.  When the most recent breeding event
    of the cow is a confirmed pregnancy and no calving is recorded after it,
    the state is [Pregnant], and [estCalving], [dryOffDate] and
    [changeFeedDate] are the date of that event moved by the gestation,
    dry-off and feed-change offsets in calendar days of the server's local
    time, at the same local time of day (stated for the dates that are in
    the range of time values).  Where the offset by which the moved date is
    read back is the offset in force at the event, as on every server with
    a fixed offset, that is the event date plus the offset times 24 hours;
    on such a server, with [gestationDays = 283] and
    [dryOffAfterSuccessfulInsemDays = 220], a single event of 2024-01-01
    gives [estCalving] = 2024-10-10 and [dryOffDate] = 2024-08-08. *)
Theorem pregnant_projection :
  (forall tz now cow settings insems l,
     mostRecent cow insems l ->
     Insem.confirmedPregnant l = true ->
     (forall lc, Cow.lastCalving cow = Some lc -> lc <= Insem.date l) ->
     let r := buildPregnancyInfo tz now cow settings insems in
     let gestationDays := orFalsy (field settings Settings.gestationDays) 283 in
     let dryOffDays :=
       orFalsy (field settings Settings.dryOffAfterSuccessfulInsemDays) 220 in
     let changeFeedDays :=
       orFalsy (field settings Settings.changeFeedAfterSuccessfulInsemDays)
         260 in
     let moved n := UTC tz (LocalTime tz (Insem.date l) + n * msPerDay) in
     Repro.status r = Repro.Pregnant /\
     Repro.conceptionDate r = Some (Insem.date l) /\
     (inTimeRange (moved gestationDays) ->
      Repro.estCalving r = Some (moved gestationDays)) /\
     (inTimeRange (moved dryOffDays) ->
      Repro.dryOffDate r = Some (moved dryOffDays)) /\
     (inTimeRange (moved changeFeedDays) ->
      Repro.changeFeedDate r = Some (moved changeFeedDays)) /\
     (forall n,
        offsetOfLocal tz (LocalTime tz (Insem.date l) + n * msPerDay)
        = offsetAt tz (Insem.date l) ->
        moved n = Insem.date l + n * msPerDay))
  /\
  (forall tza now cow s e,
     Settings.gestationDays s = Some 283 ->
     Settings.dryOffAfterSuccessfulInsemDays s = Some 220 ->
     Cow.lastCalving cow = None ->
     Insem.cowId e = Cow._id cow ->
     Insem.date e = DateUTC 2024 0 1 ->
     Insem.confirmedPregnant e = true ->
     let r := buildPregnancyInfo (fixedZone tza) now cow (Some s) [e] in
     Repro.status r = Repro.Pregnant /\
     Repro.estCalving r = Some (DateUTC 2024 9 10) /\
     Repro.dryOffDate r = Some (DateUTC 2024 7 8)).
Proof.
  split.
  - intros tz now cow settings insems l Hm Hp Hlc. cbv zeta.
    destruct (pregnant_branch tz now cow settings insems l
                (mostRecent_head _ _ _ Hm) Hp Hlc)
      as (H1 & H2 & H3 & H4 & H5).
    rewrite !addDays_local in *. repeat split; try done.
    intros n Hn. unfold UTC, LocalTime in *. lia.
  - intros tza now cow s e Hg Hd Hc Hid Hdate Hp.
    destruct (pregnant_branch (fixedZone tza) now cow (Some s) [e] e)
      as (H1 & _ & H3 & H4 & _).
    + by rewrite recordsOf_single.
    + done.
    + intros lc. by rewrite Hc.
    + cbv zeta. rewrite H1, H3, H4, !addDays_shift. cbn [field].
      rewrite Hg, Hd, Hdate. repeat split; reflexivity.
Qed.

(** On Eastern time, Bella's history of three attempts, the most recent one
    a pregnancy confirmed on 2024-01-01 (stored at midnight UTC): the
    calving is projected for 2024-10-09T23:00Z, 19:00 on the server as the
    event.  On a server in UTC the scenario of the specification gives
    2024-10-10 and 2024-08-08. *)
Lemma pregnant_projection_witness :
  (Repro.status
     (buildPregnancyInfo easternTime clock (bella None) (Some settings283)
        history) = Repro.Pregnant /\
   Repro.estCalving
     (buildPregnancyInfo easternTime clock (bella None) (Some settings283)
        history) = Some (DateUTC 2024 9 9 + 23 * msPerHour) /\
   Repro.dryOffDate
     (buildPregnancyInfo easternTime clock (bella None) (Some settings283)
        history) = Some (DateUTC 2024 7 7 + 23 * msPerHour)) /\
  (Repro.status
     (buildPregnancyInfo (fixedZone 0) clock (bella None) (Some settings283)
        [confirmedAttempt]) = Repro.Pregnant /\
   Repro.estCalving
     (buildPregnancyInfo (fixedZone 0) clock (bella None) (Some settings283)
        [confirmedAttempt]) = Some (DateUTC 2024 9 10) /\
   Repro.dryOffDate
     (buildPregnancyInfo (fixedZone 0) clock (bella None) (Some settings283)
        [confirmedAttempt]) = Some (DateUTC 2024 7 8)).
Proof.
  split.
  - destruct (proj1 pregnant_projection easternTime clock (bella None)
                (Some settings283) history confirmedAttempt)
      as (H1 & _ & H3 & H4 & _).
    + exists
        [attempt "65a0000000000000000000a1" (DateUTC 2023 0 10) false true],
        [attempt "65a0000000000000000000a3" (DateUTC 2023 5 1) false false].
      split; [reflexivity|]. split; [reflexivity|].
      split; repeat constructor; intros _; vm_compute; done.
    + reflexivity.
    + intros lc H. discriminate H.
    + split; [exact H1|]. split.
      * rewrite H3; [reflexivity|]. vm_compute. split; discriminate.
      * rewrite H4; [reflexivity|]. vm_compute. split; discriminate.
  - apply (proj2 pregnant_projection 0 clock (bella None) settings283
             confirmedAttempt); reflexivity.
Defined.

(** C5 (output guarantee), evaluated on the code.  The postpartum date is
    merged into [nextInseminationEarliest] whenever the cow has a
    [lastCalving], without the test of the state that the comment above the
    merge announces.  Bella calved on 2023-01-01 and has been confirmed
    pregnant since 2024-01-01: her state is [Pregnant], the branch of the
    pregnancy sets no [nextInseminationEarliest], and yet the field holds
    2023-03-02; the dashboard then lists an "insemination" milestone for
    her.  The same with an attempt that is still pending. *)
Theorem postpartum_date_outside_open :
  let cow := bella (Some (DateUTC 2023 0 1)) in
  let pregnant := buildPregnancyInfo utcHost clock cow None [confirmedAttempt] in
  let pending := buildPregnancyInfo utcHost clock cow None [pendingAttempt] in
  (forall tz now cow settings insems lc,
     Cow.lastCalving cow = Some lc ->
     is_Some (Repro.nextInseminationEarliest
                (buildPregnancyInfo tz now cow settings insems))) /\
  Repro.status pregnant = Repro.Pregnant /\
  Repro.nextInseminationEarliest pregnant = Some (DateUTC 2023 2 2) /\
  Repro.canAddInseminationNow pregnant = false /\
  Ev.type <$> buildEvents utcHost clock
                (mkInput [cow] [] None [confirmedAttempt] [])
  = ["insemination"; "dryOff"; "changeFeed"; "calving"] /\
  Repro.status pending = Repro.Pending /\
  Repro.nextInseminationEarliest pending = Some (DateUTC 2023 2 2) /\
  Ev.type <$> buildEvents utcHost clock
                (mkInput [cow] [] None [pendingAttempt] [])
  = ["pregnancyCheck"; "insemination"].
Proof.
  cbv zeta. split; [|repeat split; vm_compute; reflexivity].
  intros tz now cow settings insems lc Hlc. unfold buildPregnancyInfo.
  cbn [Repro.nextInseminationEarliest]. unfold mergePostpartum. rewrite Hlc.
  match goal with
  | |- context [nextInseminationEarliest ?v] =>
      destruct (nextInseminationEarliest v) as [n|]
  end; [destruct (_ <? _)|]; by eexists.
Qed.




End ReproClaims.

(** ** The alert aggregator and the confirmation overlay *)

Module AlertFacts.
Import ESDate JS Engine Alerts Overlay Vocabulary Scenario.
Import ESDateFacts SortFacts KeyFacts EngineFacts.

(** [x.setDate(x.getDate() - n)] moves [x] back by [n] whole days. *)
Lemma subDays_local tz d n :
  subDays tz d n = UTC tz (LocalTime tz d - n * msPerDay).
Proof. unfold subDays. rewrite setDate_local. repeat f_equal. lia. Qed.

Lemma subDays_shift tza d n :
  subDays (fixedZone tza) d n = d - n * msPerDay.
Proof. unfold subDays. rewrite setDate_shift. lia. Qed.

Lemma push_alertDate_local tz lead cow d type label meta :
  Ev.alertDate <$> push tz lead cow (Some d) type label meta
  = [UTC tz (LocalTime tz d - leadOf lead type * msPerDay)].
Proof. cbn. by rewrite subDays_local. Qed.

Lemma push_alertDate tza lead cow d type label meta :
  Ev.alertDate <$> push (fixedZone tza) lead cow (Some d) type label meta
  = [d - leadOf lead type * msPerDay].
Proof. cbn. by rewrite subDays_shift. Qed.

Lemma cowInsems_fold_lookup (m : gmap string (list Insem.t)) insems k :
  default [] (fold_left
                (fun m r => <[ Insem.cowId r
                               := default [] (m !! Insem.cowId r) ++ [r] ]> m)
                insems m !! k)
  = default [] (m !! k) ++ filter (fun r => Insem.cowId r = k) insems.
Proof.
  revert m. induction insems as [|r insems IH]; intros m; simpl.
  - by rewrite filter_nil, app_nil_r.
  - rewrite IH. destruct (decide (Insem.cowId r = k)) as [<-|Hne].
    + rewrite lookup_insert_eq, filter_cons_True by done. simpl.
      by rewrite <- app_assoc.
    + by rewrite lookup_insert_ne, filter_cons_False by done.
Qed.

(** The group of a cow in [cowInsems] is the sublist of its own records. *)
Lemma cowInsems_lookup insems k :
  default [] (cowInsems insems !! k)
  = filter (fun r => Insem.cowId r = k) insems.
Proof. unfold cowInsems. by rewrite cowInsems_fold_lookup, lookup_empty. Qed.

(** Inside [buildAlerts] every cow is evaluated on its own records, already
    sorted: the result is the one [buildPregnancyInfo] computes from the
    whole collection. *)
Lemma buildPregnancyInfo_grouped tz now cow settings insems :
  buildPregnancyInfo tz now cow settings
    (sortBy (fun a b => Insem.date b - Insem.date a)
       (default [] (cowInsems insems !! Cow._id cow)))
  = buildPregnancyInfo tz now cow settings insems.
Proof.
  assert (E : recordsOf cow
                (sortBy (fun a b => Insem.date b - Insem.date a)
                   (default [] (cowInsems insems !! Cow._id cow)))
              = recordsOf cow insems).
  { unfold recordsOf. rewrite cowInsems_lookup, filter_all.
    - apply sortBy_sorted_id. apply sortBy_sorted; intros; lia.
    - apply Forall_forall. intros x Hx. apply elem_of_sortBy in Hx.
      by apply list_elem_of_filter in Hx as [? _]. }
  unfold buildPregnancyInfo. by rewrite E.
Qed.

Lemma elem_of_confirmed k cs :
  k ∈ confirmed cs <->
  exists c, c ∈ cs /\ Confirmation.undone c = false /\ confirmationKey c = k.
Proof.
  unfold confirmed. rewrite elem_of_list_to_set, list_elem_of_fmap. split.
  - intros (c & -> & Hc). apply list_elem_of_filter in Hc as [Hu Hc]. eauto.
  - intros (c & Hc & Hu & <-). exists c. split; [done|].
    by apply list_elem_of_filter.
Qed.

(** An event survives the filter when no live confirmation has its key. *)
Lemma elem_of_filterActive e events cs :
  e ∈ filterActive events cs <->
  e ∈ events /\
  forall c, c ∈ cs -> Confirmation.undone c = false ->
            confirmationKey c <> confKey e.
Proof.
  unfold filterActive. rewrite list_elem_of_filter, elem_of_confirmed. split.
  - intros [Hk He]. split; [done|]. intros c Hc Hu Heq. apply Hk. eauto.
  - intros [He Hk]. split; [|done]. intros (c & Hc & Hu & Heq).
    by apply (Hk c).
Qed.

(** Day precision, for dates with a four-digit year: an event of the list is
    removed exactly when a live confirmation names its entity and milestone
    type on the same UTC calendar day. *)
Lemma filterActive_day_precision events cs e :
  e ∈ events ->
  colonFree (Ev.etype (Ev.entity e)) -> colonFree (Ev.id (Ev.entity e)) ->
  fourDigitYear (Ev.when e) ->
  Forall (fun c => colonFree (Confirmation.entityType c) /\
                   colonFree (Confirmation.entityId c) /\
                   fourDigitYear (Confirmation.when c)) cs ->
  e ∉ filterActive events cs <-> exists c, c ∈ cs /\ confirms c e.
Proof.
  intros He He1 He2 Hy Hcs. rewrite Forall_forall in Hcs.
  unfold filterActive. rewrite list_elem_of_filter. split.
  - intros Hn. destruct (decide (confKey e ∈ confirmed cs)) as [Hk|Hk].
    + apply elem_of_confirmed in Hk as (c & Hc & Hu & Hk).
      exists c. split; [done|]. split; [done|].
      destruct (Hcs c Hc) as (? & ? & ?).
      by apply confirmationKey_eq_confKey.
    + by destruct Hn.
  - intros (c & Hc & Hu & Hrest) [Hk _]. apply Hk, elem_of_confirmed.
    exists c. repeat split; [done..|].
    destruct (Hcs c Hc) as (? & ? & ?).
    by apply confirmationKey_eq_confKey.
Qed.

(** The jitter scenario: due at 23:00, confirmed for 00:10 of the same UTC
    day.  The event is filtered out; it stays when the confirmation is
    undone. *)
Lemma filterActive_same_day :
  filterActive [lateDue] [earlyDone false] = [] /\
  filterActive [lateDue] [earlyDone true] = [lateDue].
Proof. split; vm_compute; reflexivity. Qed.

Lemma findByIdAndUpdate_elem id store store' doc c' :
  NoDup (Confirmation._id <$> store) ->
  findByIdAndUpdate id store = (store', Some doc) ->
  c' ∈ store' ->
  c' = doc \/ (c' ∈ store /\ Confirmation._id c' <> id).
Proof.
  revert store'. induction store as [|c rest IH]; intros store' Hnd Hu Hin;
    simpl in Hu; [done|].
  rewrite fmap_cons in Hnd. apply NoDup_cons in Hnd as [Hc Hnd].
  destruct (decide (Confirmation._id c = id)) as [Hid|Hid]; simplify_eq/=.
  - apply elem_of_cons in Hin as [->|Hin]; [by left|right].
    split; [by right|]. intros Heq. apply Hc.
    apply list_elem_of_fmap. by exists c'.
  - destruct (findByIdAndUpdate id rest) as [rest' r] eqn:E. simplify_eq/=.
    apply elem_of_cons in Hin as [->|Hin]; [right; split; [left|done]|].
    destruct (IH rest' Hnd eq_refl Hin) as [->|[? ?]]; [by left|right].
    split; [by right|done].
Qed.

Lemma findByIdAndUpdate_doc id store store' doc :
  findByIdAndUpdate id store = (store', Some doc) ->
  Confirmation.undone doc = true /\ Confirmation._id doc = id /\ doc ∈ store'.
Proof.
  revert store'. induction store as [|c rest IH]; intros store' Hu;
    simpl in Hu; [done|].
  destruct (decide (Confirmation._id c = id)) as [Hid|Hid]; simplify_eq/=.
  - repeat split. left.
  - destruct (findByIdAndUpdate id rest) as [rest' r] eqn:E. simplify_eq/=.
    destruct (IH rest' eq_refl) as (? & ? & ?).
    repeat split; [done..|by right].
Qed.

(** Undoing twice changes nothing more. *)
Lemma markUndone_idempotent c : markUndone (markUndone c) = markUndone c.
Proof. reflexivity. Qed.

End AlertFacts.

(** ** Claims about [buildAlerts], the overlay and the defaults *)

Module AlertClaims.
Import ESDate JS Engine Alerts Overlay Vocabulary Scenario.
Import ESDateFacts SortFacts KeyFacts EngineFacts AlertFacts.

(** What the calf loops of [buildAlerts] test: the weaning loop looks at
    [birthDate] and [gender] only, the graduation loop also at [graduated];
    neither reads [status]. *)
Lemma calf_events_guards tz lead settings calf b g :
  Calf.birthDate calf = Some b ->
  Calf.gender calf = Some g -> g <> "" ->
  (exists ev, weaningEvents tz lead settings calf = [ev] /\
              Ev.type ev = "weaning") /\
  (Calf.graduated calf = false ->
   exists ev, graduationEvents tz lead settings calf = [ev] /\
              Ev.type ev = "graduation") /\
  (Calf.graduated calf = true ->
   graduationEvents tz lead settings calf = []).
Proof.
  intros Hb Hg Hne. unfold weaningEvents, graduationEvents.
  rewrite Hb, Hg. destruct g as [|a g]; [done|]. cbn [truthyStr negb].
  split; [eauto|]. split; intros ->; eauto.
Qed.

(** The graduation date is [birthDate] moved by calendar months, not by a
    multiple of 30 days: a female calf born on 2024-01-01 with
    [femaleMaturityMonths = 24] graduates on 2026-01-01, which is 731 days
    later. *)
Lemma graduation_calendar_months :
  Ev.when <$> graduationEvents utcHost (leadTable (Some settings283))
                (Some settings283) (calf Calf.alive false)
  = [DateUTC 2026 0 1] /\
  targetDate <$> getCalfGraduationInfo utcHost clock (Some (calf Calf.alive false))
                   (Some settings283)
  = Some (DateUTC 2026 0 1) /\
  DateUTC 2026 0 1 = DateUTC 2024 0 1 + 731 * msPerDay /\
  DateUTC 2026 0 1 <> DateUTC 2024 0 1 + 24 * 30 * msPerDay.
Proof. repeat split; try (vm_compute; reflexivity). vm_compute. discriminate. Qed.

(** C3 (one table of defaults), evaluated on the code.  With no settings
    document, [buildPregnancyInfo] and [buildAlerts] fall back to 260 days
    for the feed change, 60 days postpartum, 90 days retry, lead times
    10/1/1/3/0/7 and 180 weaning days; the [Community] schema declares
    210, 45, 21, lead times 7/7/7/7/7/30 and 60 weaning days.  Only the
    gestation length, the dry-off offset, the weaning lead time and the
    maturity months agree. *)
Theorem fallback_defaults_diverge :
  let uncalved := buildPregnancyInfo utcHost clock (bella None) in
  let calved := buildPregnancyInfo utcHost clock (bella (Some (DateUTC 2024 0 1))) in
  let day0 := DateUTC 2024 0 1 in
  Repro.estCalving (uncalved None [confirmedAttempt])
    = Some (day0 + 283 * msPerDay) /\
  Repro.estCalving (uncalved (Some Community.cattleSettings) [confirmedAttempt])
    = Some (day0 + 283 * msPerDay) /\
  Repro.changeFeedDate (uncalved None [confirmedAttempt])
    = Some (day0 + 260 * msPerDay) /\
  Repro.changeFeedDate
    (uncalved (Some Community.cattleSettings) [confirmedAttempt])
    = Some (day0 + 210 * msPerDay) /\
  Repro.nextInseminationEarliest (uncalved None [failedAttempt])
    = Some (day0 + 90 * msPerDay) /\
  Repro.nextInseminationEarliest
    (uncalved (Some Community.cattleSettings) [failedAttempt])
    = Some (day0 + 21 * msPerDay) /\
  Repro.nextInseminationEarliest (calved None [])
    = Some (day0 + 60 * msPerDay) /\
  Repro.nextInseminationEarliest (calved (Some Community.cattleSettings) [])
    = Some (day0 + 45 * msPerDay) /\
  (fun k => leadOf (leadTable None) k) <$>
    ["calving"; "dryOff"; "changeFeed"; "pregnancyCheck"; "insemination";
     "graduation"; "weaning"]
    = [10; 1; 1; 3; 0; 7; 7] /\
  (fun k => leadOf (leadTable (Some Community.cattleSettings)) k) <$>
    ["calving"; "dryOff"; "changeFeed"; "pregnancyCheck"; "insemination";
     "graduation"; "weaning"]
    = [7; 7; 7; 7; 7; 30; 7] /\
  Ev.when <$> weaningEvents utcHost (leadTable None) None (calf Calf.alive false)
    = [day0 + 180 * msPerDay] /\
  Ev.when <$> weaningEvents utcHost (leadTable (Some Community.cattleSettings))
                (Some Community.cattleSettings) (calf Calf.alive false)
    = [day0 + 60 * msPerDay].
Proof. cbv zeta. repeat split; vm_compute; reflexivity. Qed.

(** C4 (calf milestones), evaluated on the code.  [buildAlerts] emits a
    weaning and a graduation event for a calf whose status is [died], and a
    weaning event for a calf that has already graduated: the calf loops
    never read [status], and the weaning loop does not read [graduated]. *)
Theorem calf_events_ignore_status :
  Ev.type <$> buildEvents utcHost clock
                (mkInput [] [lostCalf] (Some settings283) [] [])
    = ["weaning"; "graduation"] /\
  Ev.type <$> buildEvents utcHost clock
                (mkInput [] [grownCalf] (Some settings283) [] [])
    = ["weaning"] /\
  Ev.type <$> filterActive
                (buildEvents utcHost clock
                   (mkInput [] [lostCalf] (Some settings283) [] [])) []
    = ["weaning"; "graduation"].
Proof. repeat split; vm_compute; reflexivity. Qed.

(** C7 (day precision), evaluated on the code.  For a year written on more
    than four digits the first ten characters of the ISO format stop inside
    the month: the insemination milestone due on 10000-02-13 is removed by a
    confirmation stored for 10000-02-01, twelve days earlier. *)
Theorem expanded_year_key_collision :
  Ev.when <$> buildEvents utcHost clock farInput = [DateUTC 10000 1 13] /\
  Confirmation.when <$> confirmations farInput = [DateUTC 10000 1 1] /\
  Day (DateUTC 10000 1 13) - Day (DateUTC 10000 1 1) = 12 /\
  confKey <$> buildEvents utcHost clock farInput
    = ["cow:65a000000000000000000001:insemination:+010000-02"] /\
  confirmationKey <$> confirmations farInput
    = ["cow:65a000000000000000000001:insemination:+010000-02"] /\
  filterActive (buildEvents utcHost clock farInput) (confirmations farInput) = [].
Proof. repeat split; vm_compute; reflexivity. Qed.

(** C8 (undo round trip).  After a successful undo of the confirmation [id],
    an event that no other live confirmation of the store matches is kept
    by the next run of the filter over the same events, on the store as the
    handlers read it. *)
Theorem undo_restores_event isValidObjectId id store store' doc events e :
  NoDup (Confirmation._id <$> store) ->
  undo isValidObjectId id store = (store', Ok doc) ->
  e ∈ events ->
  e ∉ filterActive events (findActive store) ->
  (forall c, c ∈ store -> Confirmation.undone c = false ->
             confirmationKey c = confKey e -> Confirmation._id c = id) ->
  Confirmation.undone doc = true /\
  e ∈ filterActive events (findActive store').
Proof.
  intros Hnd Hu He _ Hsole. unfold undo in Hu.
  destruct (isValidObjectId id); simpl in Hu; [|done].
  destruct (findByIdAndUpdate id store) as [s' [d|]] eqn:E; simplify_eq/=.
  destruct (findByIdAndUpdate_doc _ _ _ _ E) as (Hd & _ & _).
  split; [done|]. apply elem_of_filterActive. split; [done|].
  intros c Hc Hun Hk. unfold findActive in Hc.
  apply list_elem_of_filter in Hc as [_ Hc].
  destruct (findByIdAndUpdate_elem _ _ _ _ _ Hnd E Hc) as [->|[Hin Hne]].
  - congruence.
  - by apply Hne, Hsole.
Qed.

(** The jitter scenario again: the calving due on 2024-03-05 23:00 was
    hidden by the confirmation of 00:10; after the undo it is back. *)
Lemma undo_restores_event_witness :
  Confirmation.undone (markUndone (earlyDone false)) = true /\
  lateDue ∈ filterActive [lateDue] (findActive [markUndone (earlyDone false)]).
Proof.
  apply (undo_restores_event (fun _ => true) "65a0000000000000000000d1"
           [earlyDone false] [markUndone (earlyDone false)]
           (markUndone (earlyDone false)) [lateDue] lateDue).
  - apply NoDup_singleton.
  - reflexivity.
  - apply list_elem_of_singleton. reflexivity.
  - intros Hin. vm_compute in Hin. by apply elem_of_nil in Hin.
  - intros c Hc _ _. apply list_elem_of_singleton in Hc. by subst c.
Defined.

(** C9 (past due).  Whatever the anchor date, [pastDue] is made of the
    filtered events whose [alertDate] is before the start of the real
    current day (local midnight of the clock, not of the anchor): the first
    hundred of them in ascending order of [alertDate].  It is sorted, holds
    at most 100 entries, holds only such events, holds all of them when
    there are at most 100, and otherwise the earliest ones. *)
Theorem pastDue_real_today tz realNow i anchorDate :
  let out := buildAlerts tz realNow i anchorDate in
  let filtered := filterActive (buildEvents tz realNow i) (confirmations i) in
  let realTodayStart := UTC tz (Day (LocalTime tz realNow) * msPerDay) in
  let overdue := filter (fun ev => Ev.alertDate ev < realTodayStart) filtered in
  pastDue out =
    take 100 (sortBy (fun a b => Ev.alertDate a - Ev.alertDate b) overdue) /\
  StronglySorted (fun a b => Ev.alertDate a <= Ev.alertDate b) (pastDue out) /\
  (length (pastDue out) <= 100)%nat /\
  (forall ev, ev ∈ pastDue out ->
     ev ∈ filtered /\ Ev.alertDate ev < realTodayStart) /\
  ((length overdue <= 100)%nat -> pastDue out ≡ₚ overdue) /\
  (forall ev ev', ev ∈ pastDue out -> ev' ∈ overdue -> ev' ∉ pastDue out ->
     Ev.alertDate ev <= Ev.alertDate ev') /\
  (forall anchorDate',
     pastDue (buildAlerts tz realNow i anchorDate') = pastDue out).
Proof.
  cbv zeta.
  set (filtered := filterActive (buildEvents tz realNow i) (confirmations i)).
  set (start := UTC tz (Day (LocalTime tz realNow) * msPerDay)).
  set (overdue := filter (fun ev => Ev.alertDate ev < start) filtered).
  set (sorted := sortBy (fun a b => Ev.alertDate a - Ev.alertDate b) overdue).
  assert (E : forall a, pastDue (buildAlerts tz realNow i a) = take 100 sorted).
  { intros a. unfold buildAlerts. cbn [pastDue].
    rewrite setHours_midnight. reflexivity. }
  rewrite E.
  assert (Hs : StronglySorted (fun a b => Ev.alertDate a <= Ev.alertDate b)
                 sorted) by apply sortBy_key_asc.
  split; [done|]. split; [by apply StronglySorted_take|].
  split; [rewrite length_take; lia|]. split; [|split; [|split]].
  - intros ev Hev. apply elem_of_take_in, elem_of_sortBy in Hev.
    apply list_elem_of_filter in Hev as [? ?]. done.
  - intros Hlen. rewrite take_ge.
    + apply sortBy_Permutation.
    + unfold sorted. by rewrite length_sortBy.
  - intros ev ev' Hev Hev' Hnot.
    rewrite <- (take_drop 100 sorted) in Hs.
    eapply (StronglySorted_app_le _ _ _ ev ev' Hs); [done|].
    assert (Hin : ev' ∈ sorted) by by apply elem_of_sortBy.
    rewrite <- (take_drop 100 sorted) in Hin.
    apply elem_of_app in Hin as [?|?]; done.
  - intros a. apply E.
Qed.

(** On 2024-09-01 the weaning of Daisy (due 2024-06-29) and the dry-off of
    Bella (due 2024-08-08) are overdue, also when the calendar is browsed at
    an anchor in 2030. *)
Lemma pastDue_real_today_witness :
  Ev.type <$> pastDue (buildAlerts utcHost (DateUTC 2024 8 1) herd
                         (Some (DateUTC 2030 0 1)))
  = ["weaning"; "dryOff"] /\
  pastDue (buildAlerts utcHost (DateUTC 2024 8 1) herd None)
  = pastDue (buildAlerts utcHost (DateUTC 2024 8 1) herd (Some (DateUTC 2030 0 1))).
Proof.
  destruct (pastDue_real_today utcHost (DateUTC 2024 8 1) herd
              (Some (DateUTC 2030 0 1))) as (H1 & _ & _ & _ & _ & _ & H7).
  split; [rewrite H1; vm_compute; reflexivity|apply H7].
Defined.

(** C10 (zero as a setting).  In [buildPregnancyInfo] a core timing
    parameter that is present but 0 is read as absent: removing it from the
    settings changes nothing in the result, and a [gestationDays] of 0 is
    reported as 283.  In [buildAlerts] a lead time of 0 is kept: the lead
    is 0 and the alert date of the event is its due date, where the absent
    lead time of a calving is 10 days. *)
Theorem zero_core_absent_zero_lead_kept :
  (forall tz now cow s insems,
     buildPregnancyInfo tz now cow (Some s) insems
     = buildPregnancyInfo tz now cow (Some (coreZeroAsAbsent s)) insems) /\
  (forall tz now cow s insems,
     Settings.gestationDays s = Some 0 ->
     Repro.gestationDays (buildPregnancyInfo tz now cow (Some s) insems)
     = 283) /\
  (forall s,
     let lead := leadTable (Some s) in
     (Settings.calvingAlertBeforeDays s = Some 0 ->
        leadOf lead "calving" = 0) /\
     (Settings.dryOffAlertBeforeDays s = Some 0 ->
        leadOf lead "dryOff" = 0) /\
     (Settings.changeFeedAlertBeforeDays s = Some 0 ->
        leadOf lead "changeFeed" = 0) /\
     (Settings.pregnancyCheckAlertBeforeDays s = Some 0 ->
        leadOf lead "pregnancyCheck" = 0) /\
     (Settings.inseminationAlertBeforeDays s = Some 0 ->
        leadOf lead "insemination" = 0) /\
     (Settings.graduationAlertBeforeDays s = Some 0 ->
        leadOf lead "graduation" = 0) /\
     (Settings.weaningAlertBeforeDays s = Some 0 ->
        leadOf lead "weaning" = 0)) /\
  (forall tza s cow d label meta,
     Settings.calvingAlertBeforeDays s = Some 0 ->
     Ev.alertDate <$> push (fixedZone tza) (leadTable (Some s)) cow (Some d)
                        "calving" label meta = [d]) /\
  (forall tza cow d label meta,
     Ev.alertDate <$> push (fixedZone tza) (leadTable None) cow (Some d)
                        "calving" label meta = [d - 10 * msPerDay]).
Proof.
  split; [|split; [|split; [|split]]].
  - intros. unfold buildPregnancyInfo.
    cbn [field coreZeroAsAbsent Settings.gestationDays
         Settings.dryOffAfterSuccessfulInsemDays
         Settings.changeFeedAfterSuccessfulInsemDays
         Settings.postpartumInseminationStartDays
         Settings.inseminationIntervalDays].
    by rewrite !orFalsy_dropZero.
  - intros tz now cow s insems H. unfold buildPregnancyInfo.
    cbn [Repro.gestationDays field]. by rewrite H.
  - intros s. cbv zeta. unfold leadOf, leadTable. cbn [field].
    repeat split; intros ->; reflexivity.
  - intros tza s cow d label meta H. rewrite push_alertDate.
    unfold leadOf, leadTable. cbn [field]. rewrite H.
    replace (orFalsy _ 0) with 0 by reflexivity. f_equal. lia.
  - intros. rewrite push_alertDate. reflexivity.
Qed.

(** Settings with [gestationDays = 0] and a calving lead time of 0: Bella's
    calving is projected 283 days after 2024-01-01 and its alert falls on
    the due date itself. *)
Lemma zero_core_absent_zero_lead_kept_witness :
  Repro.gestationDays
    (buildPregnancyInfo utcHost clock (bella None) (Some zeroSettings)
       [confirmedAttempt]) = 283 /\
  Ev.alertDate <$> push utcHost (leadTable (Some zeroSettings)) (bella None)
                     (Some (DateUTC 2024 9 10)) "calving" "Estimated Calving"
                     Ev.metaEmpty
  = [DateUTC 2024 9 10].
Proof.
  destruct zero_core_absent_zero_lead_kept as (_ & H2 & _ & H4 & _).
  split; [apply H2|apply H4]; reflexivity.
Defined.

End AlertClaims.
